(** * RAG chatbot: a shallow embedding of the glue code and its properties

    The repository has four Python modules:
    - [src/config/logger_config.py]  (module [LoggerConfig] below),
    - [src/indexing/create_index.py] (module [CreateIndexScript]),
    - [src/ingesting/ingest.py]      (module [IngestScript]),
    - [src/query/query.py]           (module [Query]).

    The cloud services and third-party libraries the code calls (Azure
    OpenAI, Azure AI Search, llama-index, Streamlit) are not part of the
    repository.  Every call into them is recorded as an [event] in a
    chronological trace, and what the call returns is supplied by an
    oracle record, so the theorems hold for every behaviour of the
    services.  Mutable Python lists that are shared between caller and
    callee (the chat history) live in a heap of list objects. *)

From Stdlib Require Import ZArith String Ascii List DecimalString.
From stdpp Require Import base gmap strings list.

Open Scope string_scope.
Open Scope list_scope.

(** ** Python-level data *)

(** The one-character string ["\n"]. *)
Definition nl : string := String "010"%char "".

(** [f"{n}"] for a Python [int]. *)
Definition str_of_Z (z : Z) : string := NilZero.string_of_int (Z.to_int z).

(** A raised exception: its class name and [str(e)].  The sum type
    [result] below carries the exceptions that are instances of Python's
    [Exception], the ones an [except Exception] clause handles. *)
Record exn := Exn { exn_class : string; exn_str : string }.

Definition ValueError (msg : string) : exn := Exn "ValueError" msg.
Definition IndexError (msg : string) : exn := Exn "IndexError" msg.

Inductive result (A : Type) : Type :=
| Ok (a : A)
| Raise (e : exn).
Arguments Ok {A} a.
Arguments Raise {A} e.

(** A value that is [None] or a [str]: [None] is [None], [Some s] is [s]. *)
Definition truthy (v : option string) : bool :=
  match v with
  | None => false
  | Some s => negb (String.eqb s "")
  end.

(** [a or b] on such values. *)
Definition py_or (a b : option string) : option string :=
  if truthy a then a else b.

(** [f"{v}"] on such values. *)
Definition fmt (v : option string) : string :=
  match v with
  | None => "None"
  | Some s => s
  end.

(** [l[0]] on a Python list. *)
Definition index0 {A : Type} (l : list A) : result A :=
  match l with
  | [] => Raise (IndexError "list index out of range")
  | x :: _ => Ok x
  end.

(** [os.environ] after [load_dotenv()]. *)
Abbreviation environ := (gmap string string).

(** [os.getenv(name)] and [os.getenv(name, default)]. *)
Definition getenv (env : environ) (name : string) : option string := env !! name.
Definition getenv_default (env : environ) (name dflt : string) : string :=
  default dflt (env !! name).

(** A decimal literal of the source, [dec_digits / 10 ^ dec_scale]. *)
Record decimal := Decimal { dec_digits : Z; dec_scale : nat }.

(** ** Requests and responses of the services *)

(** An embedding vector.  The code never inspects its components. *)
Definition vector := list Z.

(** One entry of [vector_queries]. *)
Record vector_query := VectorQuery {
  vq_kind : string;
  vq_vector : vector;
  vq_fields : string;
  vq_k : Z
}.

(** The keyword arguments of [search_client.search]. *)
Record search_request := SearchRequest {
  search_text : string;
  vector_queries : list vector_query;
  select : list string
}.

(** A search hit is a dict from field names to [None] or a string. *)
Abbreviation search_doc := (gmap string (option string)).

(** [search] returns a lazy pager: iterating it yields hits and may raise
    when a page cannot be fetched. *)
Inductive paged : Type :=
| PageEnd
| PageItem (r : search_doc) (rest : paged)
| PageError (e : exn).

(** The hits a pager yields before it ends or raises. *)
Fixpoint yielded (p : paged) : list search_doc :=
  match p with
  | PageEnd => []
  | PageItem r rest => r :: yielded rest
  | PageError _ => []
  end.

(** A chat message, the dict [{"role": ..., "content": ...}]. *)
Record message := Message { role : string; content : option string }.

(** The keyword arguments of [chat.completions.create]. *)
Record chat_request := ChatRequest {
  model : string;
  messages : list message;
  temperature : decimal;
  max_tokens : Z
}.

(** A field of the index schema, and the index definition. *)
Record index_field := IndexField {
  field_name : string;
  field_type : string;
  field_key : bool;
  field_searchable : bool;
  field_filterable : bool;
  field_facetable : bool;
  field_analyzer : option string;
  field_dimensions : option Z;
  field_profile : option string
}.

Record search_index := SearchIndex {
  index_name : string;
  index_fields : list index_field;
  index_algorithms : list string;
  index_profiles : list (string * string)
}.

(** Documents read from disk and the nodes (chunks) the splitter makes. *)
Definition document := string.
Definition node := string.

(** ** Events, worlds and the monad of the scripts *)

Inductive level := DEBUG | INFO | WARNING | ERROR | CRITICAL.

Inductive event : Type :=
(* logger.debug / info / error; logger.exception carries the exception *)
| Log (lvl : level) (msg : string) (exc_info : option exn)
(* construction of an SDK client object, with its keyword arguments *)
| NewClient (cls : string) (kwargs : list (string * option string))
(* query.py *)
| EmbeddingsCreate (input : string) (model : string)
| Search (req : search_request)
| ChatCompletionsCreate (req : chat_request)
| SetPageConfig (page_title page_icon : string)
| Title (text : string)
| ChatMessage (name : string) (markdown : option string)
| Rerun
(* create_index.py *)
| ListIndexNames
| DeleteIndex (name : string)
| CreateIndex (index : search_index)
(* ingest.py *)
| LoadData (dir : string)
| GetNodesFromDocuments (chunk_size chunk_overlap : Z) (docs : list document)
| BuildIndex (nodes : list node) (index_name embed_deployment : option string).

(** A list object is named by its address in the heap. *)
Abbreviation loc := nat.

Record world := World {
  trace : list event;
  heap : gmap nat (list message)
}.

Definition M (A : Type) : Type := world -> result A * world.

Definition ret {A} (a : A) : M A := fun w => (Ok a, w).

Definition bind {A B} (c : M A) (k : A -> M B) : M B :=
  fun w =>
    match c w with
    | (Ok a, w') => k a w'
    | (Raise e, w') => (Raise e, w')
    end.

Notation "'let*' x ':=' c 'in' k" := (bind c (fun x => k))
  (at level 10, x name, c at level 100, k at level 200).
Notation "c ';;;' k" := (bind c (fun _ => k))
  (at level 100, k at level 200, right associativity).

(** [raise e]. *)
Definition raise {A} (e : exn) : M A := fun w => (Raise e, w).

(** [try: body  except Exception as e: handler e]. *)
Definition try_except {A} (body : M A) (handler : exn -> M A) : M A :=
  fun w =>
    match body w with
    | (Ok a, w') => (Ok a, w')
    | (Raise e, w') => handler e w'
    end.

(** [try: body  except cls as e: handler e] for a class [cls] that has
    no subclasses: an exception of any other class passes through. *)
Definition try_except_class {A} (cls : string) (body : M A) (handler : exn -> M A) : M A :=
  fun w =>
    match body w with
    | (Ok a, w') => (Ok a, w')
    | (Raise e, w') =>
        if String.eqb (exn_class e) cls then handler e w' else (Raise e, w')
    end.

(** A pure step that may raise. *)
Definition lift {A} (r : result A) : M A := fun w => (r, w).

Definition emit (e : event) : M unit :=
  fun w => (Ok tt, World (trace w ++ [e]) (heap w)).

(** A call into a service: the call is recorded, the oracle answers. *)
Definition call {A} (e : event) (answer : result A) : M A :=
  emit e ;;; lift answer.

Definition logger_debug (msg : string) : M unit := emit (Log DEBUG msg None).
Definition logger_info (msg : string) : M unit := emit (Log INFO msg None).
Definition logger_error (msg : string) : M unit := emit (Log ERROR msg None).
(** [logger.exception(msg)] inside [except Exception as e]. *)
Definition logger_exception (msg : string) (e : exn) : M unit :=
  emit (Log ERROR msg (Some e)).

(** *** List objects *)

(** The contents of the list at [l]. *)
Definition list_read (l : loc) : M (list message) :=
  fun w => (Ok (default [] (heap w !! l)), w).

(** [list()] / a new list object with the given contents. *)
Definition list_new (xs : list message) : M loc :=
  fun w =>
    let l := fresh (dom (heap w)) in
    (Ok l, World (trace w) (<[l := xs]> (heap w))).

(** [l.append(x)]: the object at [l] is updated in place. *)
Definition list_append (l : loc) (x : message) : M unit :=
  fun w => (Ok tt, World (trace w) (<[l := default [] (heap w !! l) ++ [x]]> (heap w))).

(** [copy.deepcopy(l)] for a list of message dicts.  Messages are values
    here, so copying the dicts is the identity on them; the list object
    itself is new. *)
Definition deepcopy (l : loc) : M loc :=
  let* xs := list_read l in list_new xs.

(** The service calls of a trace, without the log records. *)
Definition is_log (e : event) : bool :=
  match e with Log _ _ _ => true | _ => false end.

Definition calls (tr : list event) : list event :=
  List.filter (fun e => negb (is_log e)) tr.

(** ** src/config/logger_config.py *)

Module LoggerConfig.

(** [logging.INFO] and [logging.WARNING]; a level is a Python [int]. *)
Definition logging_NOTSET : Z := 0.
Definition logging_INFO : Z := 20.
Definition logging_WARNING : Z := 30.

Record formatter := Formatter { fmt_string : string; datefmt : option string }.

Inductive log_filter := StripNonEncodableFilter.

Inductive handler : Type :=
| RotatingFileHandler (filename : string) (maxBytes backupCount : Z)
    (encoding : string) (fmtr : option formatter) (lvl : Z)
| StreamHandler (stream : string) (filters : list log_filter)
    (fmtr : option formatter) (lvl : Z).

Definition is_file_handler (h : handler) : bool :=
  match h with RotatingFileHandler _ _ _ _ _ _ => true | _ => false end.
Definition is_console_handler (h : handler) : bool :=
  match h with StreamHandler _ _ _ _ => true | _ => false end.

(** [h.setFormatter(f)], [h.setLevel(l)], [h.addFilter(f)]. *)
Definition setFormatter (f : formatter) (h : handler) : handler :=
  match h with
  | RotatingFileHandler fn mb bc enc _ l => RotatingFileHandler fn mb bc enc (Some f) l
  | StreamHandler s fs _ l => StreamHandler s fs (Some f) l
  end.
Definition handler_setLevel (l : Z) (h : handler) : handler :=
  match h with
  | RotatingFileHandler fn mb bc enc f _ => RotatingFileHandler fn mb bc enc f l
  | StreamHandler s fs f _ => StreamHandler s fs f l
  end.
Definition addFilter (x : log_filter) (h : handler) : handler :=
  match h with
  | StreamHandler s fs f l => StreamHandler s (fs ++ [x]) f l
  | other => other
  end.

(** A [logging.Logger] object. *)
Record logger := Logger {
  level_of : Z;
  propagate : bool;
  handlers : list handler
}.

(** The state of the [logging] module: the loggers by name (the dict
    behind [logging.getLogger]) and the [captureWarnings] switch. *)
Record logging := Logging {
  loggers : gmap string logger;
  capture_warnings : bool
}.

(** The key under which the logger called [name] is kept:
    [logging.getLogger] answers with the one root logger when [name] is
    empty or is ["root"]. *)
Definition logger_key (name : string) : string :=
  if String.eqb name "" then "root" else name.

(** A logger before anything was done to it: the root logger starts at
    [WARNING], every other logger at [NOTSET]. *)
Definition new_logger (key : string) : logger :=
  Logger (if String.eqb key "root" then logging_WARNING else logging_NOTSET) true [].

(** [logging.getLogger(name)]: the logger of that name, created on
    first use. *)
Definition getLogger (name : string) (st : logging) : logger :=
  default (new_logger (logger_key name)) (loggers st !! logger_key name).

(** The state after the logger called [name] has become [lg]. *)
Definition put_logger (name : string) (lg : logger) (st : logging) : logging :=
  Logging (<[logger_key name := lg]> (loggers st)) (capture_warnings st).

(** [logger.setLevel(l)], [logger.propagate = b], [logger.addHandler(h)]
    and [logging.captureWarnings(b)]. *)
Definition setLevel (l : Z) (lg : logger) : logger :=
  Logger l (propagate lg) (handlers lg).
Definition set_propagate (b : bool) (lg : logger) : logger :=
  Logger (level_of lg) b (handlers lg).
Definition addHandler (h : handler) (lg : logger) : logger :=
  Logger (level_of lg) (propagate lg) (handlers lg ++ [h]).
Definition captureWarnings (b : bool) (st : logging) : logging :=
  Logging (loggers st) b.

(** The two module-level [setLevel(logging.WARNING)] calls. *)
Definition quiet (name : string) (st : logging) : logging :=
  put_logger name (setLevel logging_WARNING (getLogger name st)) st.

Definition module_init (st : logging) : logging :=
  quiet "azure.core.pipeline.policies.http_logging_policy" (quiet "azure" st).

(** [str.lower()] and [str.replace("-", "")] on encoding names. *)
Definition lower_ascii (c : ascii) : ascii :=
  let n := nat_of_ascii c in
  if Nat.leb 65 n && Nat.leb n 90 then ascii_of_nat (n + 32) else c.

Fixpoint lower (s : string) : string :=
  match s with
  | EmptyString => EmptyString
  | String c r => String (lower_ascii c) (lower r)
  end.

Fixpoint remove_dashes (s : string) : string :=
  match s with
  | EmptyString => EmptyString
  | String c r =>
      if Ascii.eqb c "-"%char then remove_dashes r else String c (remove_dashes r)
  end.

(** [stdout_encoding] is [getattr(sys.stdout, "encoding", None)]. *)
Definition _console_supports_utf8 (stdout_encoding : option string) : bool :=
  let enc := fmt (py_or stdout_encoding (Some "")) in
  String.eqb (remove_dashes (lower enc)) "utf8".

(** *** The filter of the console handler *)

(** A [logging.LogRecord], as far as the filter reads and writes it. *)
Record log_record := LogRecord { record_msg : string; record_args : list string }.

(** The text operations of Python the filter relies on: [msg % args],
    [s.encode(enc)], [s.encode(enc, errors="replace")] and
    [b.decode(enc)].  Each may raise. *)
Record text_ops := TextOps {
  percent_format : string -> list string -> result string;
  str_encode : string -> string -> result string;
  str_encode_replace : string -> string -> result string;
  bytes_decode : string -> string -> result string
}.

(** [record.getMessage()]. *)
Definition getMessage (py : text_ops) (record : log_record) : result string :=
  match record_args record with
  | [] => Ok (record_msg record)
  | args => percent_format py (record_msg record) args
  end.

(** [StripNonEncodableFilter.filter(record)]: whether the record is let
    through, and the record as the filter leaves it. *)
Definition strip_non_encodable (py : text_ops) (stdout_encoding : option string)
    (record : log_record) : M (bool * log_record) :=
  let* msg := lift (getMessage py record) in
  let enc := fmt (py_or stdout_encoding (Some "utf-8")) in
  let* record :=
    try_except_class "UnicodeEncodeError"
      (let* _ := lift (str_encode py enc msg) in
       ret record)
      (fun _ =>
         let* encoded := lift (str_encode_replace py enc msg) in
         let* decoded := lift (bytes_decode py enc encoded) in
         ret (LogRecord decoded [])) in
  ret (true, record).

Section SetupLogger.
(** Opening [LOG_DIR / log_file] for appending, which
    [RotatingFileHandler] does when it is constructed: the absolute name
    of the file opened, or the [OSError] raised.  The answer depends on
    the file system and on the path rules of the platform. *)
Variable open_log_file : string -> result string.
(** The encoding of [sys.stdout]. *)
Variable stdout_encoding : option string.

(** The file handler once the file [baseFilename] has been opened. *)
Definition file_handler (baseFilename : string) (level : Z) : handler :=
  let fh := RotatingFileHandler baseFilename (5 * 1024 * 1024) 3 "utf-8" None logging_NOTSET in
  let file_fmt :=
    Formatter "%(asctime)s | %(levelname)-8s | %(name)s | %(message)s"
              (Some "%Y-%m-%d %H:%M:%S") in
  handler_setLevel level (setFormatter file_fmt fh).

Definition console_handler (level : Z) : handler :=
  let ch := StreamHandler "sys.stdout" [] None logging_NOTSET in
  let ch := if negb (_console_supports_utf8 stdout_encoding)
            then addFilter StripNonEncodableFilter ch else ch in
  let console_fmt := Formatter "%(levelname)s | %(message)s" None in
  handler_setLevel level (setFormatter console_fmt ch).

(** [setup_logger(name, log_file, level)].  The logger returned is given
    by its key.  When the file cannot be opened the exception leaves the
    function; the level and the propagate flag have been written by
    then. *)
Definition setup_logger (name log_file : string) (level : Z) (st : logging)
  : result string * logging :=
  let logger := getLogger name st in
  let logger := setLevel level logger in
  let logger := set_propagate false logger in
  match handlers logger with
  | _ :: _ => (Ok (logger_key name), put_logger name logger st)
  | [] =>
      match open_log_file log_file with
      | Raise e => (Raise e, put_logger name logger st)
      | Ok baseFilename =>
          let logger := addHandler (file_handler baseFilename level) logger in
          let logger := addHandler (console_handler level) logger in
          (Ok (logger_key name), captureWarnings true (put_logger name logger st))
      end
  end.
End SetupLogger.

(** *** Reading a handler *)

Definition handler_level (h : handler) : Z :=
  match h with
  | RotatingFileHandler _ _ _ _ _ l => l
  | StreamHandler _ _ _ l => l
  end.

Definition handler_filters (h : handler) : list log_filter :=
  match h with
  | RotatingFileHandler _ _ _ _ _ _ => []
  | StreamHandler _ fs _ _ => fs
  end.

Definition handler_filename (h : handler) : option string :=
  match h with
  | RotatingFileHandler fn _ _ _ _ _ => Some fn
  | StreamHandler _ _ _ _ => None
  end.

(** *** [install_global_exception_hook] *)

(** A class is given by its method resolution order, the names of the
    class itself and of all its bases; [issubclass(exc_type, cls)] asks
    whether [cls] is among them. *)
Definition issubclass (exc_type : list string) (cls : string) : bool :=
  existsb (String.eqb cls) exc_type.

(** What [_handle] did with the exception: it passed it on to
    [sys.__excepthook__], or it logged it. *)
Inductive hook_outcome := DefaultExcepthook | LoggedCritical.

(** The function [install_global_exception_hook] stores in
    [sys.excepthook]. *)
Definition _handle (exc_type : list string) (exc_value : exn) : M hook_outcome :=
  if issubclass exc_type "KeyboardInterrupt"
  then ret DefaultExcepthook
  else emit (Log CRITICAL "Uncaught exception" (Some exc_value)) ;;;
       ret LoggedCritical.

End LoggerConfig.

(** ** src/indexing/create_index.py *)

Module CreateIndexScript.

(** The Azure index-management service as the script uses it.
    [search_index_client] is the constructor of the client, given the
    endpoint and the key: it checks its arguments and may raise. *)
Record services := Services {
  search_index_client : option string -> option string -> result unit;
  list_index_names : result (list string);
  delete_index : string -> result unit;
  create_index : search_index -> result unit
}.

Definition fields : list index_field :=
  [ IndexField "doc_id" "Edm.String" true false false false None None None;
    IndexField "content" "Edm.String" false true false false (Some "en.microsoft") None None;
    IndexField "embedding" "Collection(Edm.Single)" false true false false None
               (Some 3072%Z) (Some "my-vector-config");
    IndexField "metadata" "Edm.String" false false true true None None None ].

Definition index (AZURE_SEARCH_INDEX : string) : search_index :=
  SearchIndex AZURE_SEARCH_INDEX fields ["my-hnsw"] [("my-vector-config", "my-hnsw")].

(** The module body from the configuration on, run top to bottom, the
    logger being set up and the exception hook installed.  The client is
    constructed before the [try] block is entered. *)
Definition main (env : environ) (svc : services) : M unit :=
  let AZURE_SEARCH_ENDPOINT := getenv env "AZURE_SEARCH_ENDPOINT" in
  let AZURE_SEARCH_API_KEY := getenv env "AZURE_SEARCH_API_KEY" in
  let AZURE_SEARCH_INDEX := getenv_default env "AZURE_SEARCH_INDEX" "client-manual-index" in
  (if negb (truthy AZURE_SEARCH_ENDPOINT) || negb (truthy AZURE_SEARCH_API_KEY)
   then logger_error " Missing Azure Search configuration in .env" ;;;
        raise (ValueError "Azure Search endpoint and key must be set in environment variables")
   else ret tt) ;;;
  logger_info " Starting index creation process" ;;;
  logger_debug ("Using endpoint: " +:+ fmt AZURE_SEARCH_ENDPOINT +:+
                ", index name: " +:+ AZURE_SEARCH_INDEX) ;;;
  call (NewClient "SearchIndexClient"
          [("endpoint", AZURE_SEARCH_ENDPOINT); ("credential", AZURE_SEARCH_API_KEY)])
       (search_index_client svc AZURE_SEARCH_ENDPOINT AZURE_SEARCH_API_KEY) ;;;
  try_except
    (let* existing_indexes := call ListIndexNames (list_index_names svc) in
     (if existsb (String.eqb AZURE_SEARCH_INDEX) existing_indexes
      then logger_info (" Index '" +:+ AZURE_SEARCH_INDEX +:+
                        "' already exists. Deleting old version…") ;;;
           call (DeleteIndex AZURE_SEARCH_INDEX) (delete_index svc AZURE_SEARCH_INDEX)
      else ret tt) ;;;
     logger_info ("Creating index '" +:+ AZURE_SEARCH_INDEX +:+ "'...") ;;;
     call (CreateIndex (index AZURE_SEARCH_INDEX))
          (create_index svc (index AZURE_SEARCH_INDEX)) ;;;
     logger_info ("Index '" +:+ AZURE_SEARCH_INDEX +:+ "' created successfully!"))
    (fun e =>
       logger_exception (" Failed to create/update index: " +:+ exn_str e) e ;;;
       raise e).

End CreateIndexScript.

(** ** src/ingesting/ingest.py *)

Module IngestScript.

(** The llama-index reader, splitter and index builder as the script
    uses them. *)
Record services := Services {
  load_data : string -> result (list document);
  get_nodes_from_documents : Z -> Z -> list document -> result (list node);
  build_index : list node -> result unit
}.

Definition local_dir : string := "./data".

Definition str_of_len {A} (l : list A) : string := str_of_Z (Z.of_nat (length l)).

(** The whole module body, run top to bottom. *)
Definition main (env : environ) (svc : services) : M unit :=
  let search_endpoint := getenv env "AZURE_SEARCH_ENDPOINT" in
  let search_key := getenv env "AZURE_SEARCH_API_KEY" in
  let search_index := getenv env "AZURE_SEARCH_INDEX" in
  let aoai_endpoint := getenv env "AZURE_OPENAI_ENDPOINT" in
  let aoai_key := getenv env "AZURE_OPENAI_API_KEY" in
  let aoai_embed_model := getenv env "AZURE_OPENAI_EMBED_DEPLOYMENT" in
  let aoai_api_version := getenv env "OPENAI_API_VERSION" in
  (if negb (truthy search_endpoint) || negb (truthy search_key) || negb (truthy search_index)
   then logger_error "Missing Azure Search configuration in .env" ;;;
        raise (ValueError "Azure Search settings must be set in environment variables")
   else ret tt) ;;;
  (if negb (truthy aoai_endpoint) || negb (truthy aoai_key) || negb (truthy aoai_embed_model)
   then logger_error "Missing Azure OpenAI configuration in .env" ;;;
        raise (ValueError "Azure OpenAI settings must be set in environment variables")
   else ret tt) ;;;
  logger_info "Starting ingestion process" ;;;
  logger_debug ("Using index: " +:+ fmt search_index +:+
                ", endpoint: " +:+ fmt search_endpoint) ;;;
  logger_info " Reading PDFs from local data folder..." ;;;
  let* documents :=
    try_except
      (let* documents := call (LoadData local_dir) (load_data svc local_dir) in
       logger_info ("Loaded " +:+ str_of_len documents +:+ " documents") ;;;
       ret documents)
      (fun e => logger_exception "Failed while reading documents" e ;;; raise e) in
  logger_info "Initializing Azure OpenAI embedding model..." ;;;
  emit (NewClient "AzureOpenAIEmbedding"
          [("model", Some "text-embedding-3-large");
           ("deployment_name", aoai_embed_model);
           ("api_key", aoai_key);
           ("azure_endpoint", aoai_endpoint);
           ("api_version", aoai_api_version)]) ;;;
  logger_info "Connecting to Azure AI Search vector store..." ;;;
  emit (NewClient "SearchClient"
          [("endpoint", search_endpoint);
           ("index_name", search_index);
           ("credential", search_key)]) ;;;
  emit (NewClient "AzureAISearchVectorStore"
          [("id_field_key", Some "doc_id");
           ("chunk_field_key", Some "content");
           ("embedding_field_key", Some "embedding");
           ("metadata_string_field_key", Some "metadata");
           ("doc_id_field_key", Some "doc_id")]) ;;;
  logger_info "Splitting documents into smaller chunks..." ;;;
  let* nodes := call (GetNodesFromDocuments 1000 100 documents)
                     (get_nodes_from_documents svc 1000 100 documents) in
  logger_info ("Split " +:+ str_of_len documents +:+ " documents into " +:+
               str_of_len nodes +:+ " chunks") ;;;
  logger_info "Building index and pushing to Azure AI Search..." ;;;
  try_except
    (call (BuildIndex nodes search_index aoai_embed_model) (build_index svc nodes) ;;;
     logger_info ("Successfully pushed " +:+ str_of_len nodes +:+
                  " chunks into Azure AI Search index '" +:+ fmt search_index +:+ "'"))
    (fun e => logger_exception "Failed while building/pushing index" e ;;; raise e).

End IngestScript.

(** ** src/query/query.py *)

Module Query.

(** The module-level settings. *)
Record config := Config {
  AZURE_OPENAI_ENDPOINT : option string;
  AZURE_OPENAI_KEY : option string;
  AZURE_OPENAI_CHAT_DEPLOYMENT : string;
  AZURE_OPENAI_EMBED_DEPLOYMENT : string;
  AZURE_SEARCH_ENDPOINT : option string;
  AZURE_SEARCH_API_KEY : option string;
  AZURE_SEARCH_INDEX : option string
}.

Definition load_config (env : environ) : config :=
  {| AZURE_OPENAI_ENDPOINT := getenv env "AZURE_OPENAI_ENDPOINT";
     AZURE_OPENAI_KEY := getenv env "AZURE_OPENAI_API_KEY";
     AZURE_OPENAI_CHAT_DEPLOYMENT := getenv_default env "AZURE_OPENAI_CHAT_DEPLOYMENT" "chat";
     AZURE_OPENAI_EMBED_DEPLOYMENT := getenv_default env "AZURE_OPENAI_EMBED_DEPLOYMENT" "embed";
     AZURE_SEARCH_ENDPOINT := getenv env "AZURE_SEARCH_ENDPOINT";
     AZURE_SEARCH_API_KEY := getenv env "AZURE_SEARCH_API_KEY";
     AZURE_SEARCH_INDEX := getenv env "AZURE_SEARCH_INDEX" |}.

(** The Azure OpenAI and Azure AI Search services as the module uses
    them.  [embeddings_create] answers with [response.data] (the
    embedding of each entry), [chat_completions_create] with the
    [message.content] of each entry of [response.choices]. *)
Record services := Services {
  embeddings_create : string -> string -> result (list vector);
  search : search_request -> result paged;
  chat_completions_create : chat_request -> result (list (option string))
}.

(** Lines 38-73: the two configuration checks, then the two clients. *)
Definition startup (cfg : config) : M unit :=
  (if negb (truthy (AZURE_OPENAI_ENDPOINT cfg)) || negb (truthy (AZURE_OPENAI_KEY cfg))
   then logger_error " Missing Azure OpenAI configuration in .env" ;;;
        raise (ValueError "Azure OpenAI settings must be set in environment variables")
   else ret tt) ;;;
  (if negb (truthy (AZURE_SEARCH_ENDPOINT cfg)) || negb (truthy (AZURE_SEARCH_API_KEY cfg))
      || negb (truthy (AZURE_SEARCH_INDEX cfg))
   then logger_error "Missing Azure Search configuration in .env" ;;;
        raise (ValueError "Azure Search settings must be set in environment variables")
   else ret tt) ;;;
  logger_info "Starting chatbot app (Streamlit + Azure OpenAI + Cognitive Search)" ;;;
  emit (NewClient "AzureOpenAI"
          [("api_key", AZURE_OPENAI_KEY cfg);
           ("api_version", Some "2024-12-01-preview");
           ("azure_endpoint", AZURE_OPENAI_ENDPOINT cfg)]) ;;;
  logger_info "Azure OpenAI client initialized successfully" ;;;
  emit (NewClient "SearchClient"
          [("endpoint", AZURE_SEARCH_ENDPOINT cfg);
           ("index_name", AZURE_SEARCH_INDEX cfg);
           ("credential", AZURE_SEARCH_API_KEY cfg)]) ;;;
  logger_info (" Connected to Azure Cognitive Search index: " +:+ fmt (AZURE_SEARCH_INDEX cfg)).

(** [r.get(key)] and [r.get(key, dflt)] on a search hit. *)
Definition get (r : search_doc) (key : string) (dflt : option string) : option string :=
  default dflt (r !! key).

(** The body of the [for r in results] loop: the chunk appended for
    [r], if any. *)
Definition chunk_of (r : search_doc) : option string :=
  let content := get r "content" None in
  let metadata := get r "metadata" (Some "") in
  let doc_id := get r "doc_id" (Some "") in
  if truthy content
  then Some (fmt content +:+ nl +:+ "(Source: " +:+ fmt (py_or metadata doc_id) +:+ ")")
  else None.

(** The loop itself, [chunks] being the list built so far.  Fetching
    the next hit may raise. *)
Fixpoint collect (results : paged) (chunks : list string) : result (list string) :=
  match results with
  | PageEnd => Ok chunks
  | PageError e => Raise e
  | PageItem r rest =>
      match chunk_of r with
      | Some c => collect rest (chunks ++ [c])
      | None => collect rest chunks
      end
  end.

(** The keyword arguments of the [search_client.search] call. *)
Definition vector_search_request (query_embedding : vector) (top_k : Z) : search_request :=
  {| search_text := "";
     vector_queries := [ {| vq_kind := "vector";
                            vq_vector := query_embedding;
                            vq_fields := "embedding";
                            vq_k := top_k |} ];
     select := ["content"; "metadata"; "doc_id"] |}.

Definition system_instruction : string :=
  "You are a helpful assistant. Use the provided context to answer questions accurately. " +:+
  "If the context is insufficient, give the most careful, concise answer possible. " +:+
  "Always cite the sources when available. Do not hallucinate beyond the context.".

Section Handlers.
Variable cfg : config.
Variable svc : services.

Definition get_top_chunks (query : string) (top_k : Z) : M (list string) :=
  logger_info (" Retrieving top " +:+ str_of_Z top_k +:+ " chunks for query: " +:+ query) ;;;
  try_except
    (let* data := call (EmbeddingsCreate query (AZURE_OPENAI_EMBED_DEPLOYMENT cfg))
                       (embeddings_create svc query (AZURE_OPENAI_EMBED_DEPLOYMENT cfg)) in
     let* query_embedding := lift (index0 data) in
     let* results := call (Search (vector_search_request query_embedding top_k))
                          (search svc (vector_search_request query_embedding top_k)) in
     let* chunks := lift (collect results []) in
     logger_info (" Retrieved " +:+ str_of_Z (Z.of_nat (length chunks)) +:+
                  " chunks for query: " +:+ query) ;;;
     ret chunks)
    (fun e => logger_exception "Error occurred during vector search" e ;;; ret []).

(** The text after ["Context:\n"] in the final user message. *)
Definition context_text (context_chunks : list string) : string :=
  match context_chunks with
  | [] => ""
  | _ :: _ => String.concat nl context_chunks
  end.

Definition system_message : message :=
  {| role := "system"; content := Some system_instruction |}.

Definition user_message_with_context (context_chunks : list string) (user_query : string)
  : message :=
  {| role := "user";
     content := Some ("Context:" +:+ nl +:+ context_text context_chunks +:+ nl +:+ nl +:+
                      "Question: " +:+ user_query) |}.

(** The keyword arguments of the [chat.completions.create] call. *)
Definition completion_request (msgs : list message) : chat_request :=
  {| model := AZURE_OPENAI_CHAT_DEPLOYMENT cfg;
     messages := msgs;
     temperature := Decimal 2 1;
     max_tokens := 1000 |}.

(** [chat_history] is the caller's list object; the same object is
    returned. *)
Definition generate_answer (user_query : string) (chat_history : loc)
  : M (option string * loc) :=
  logger_info ("Generating answer for user query: " +:+ user_query) ;;;
  let* context_chunks := get_top_chunks user_query 10 in
  let* messages := deepcopy chat_history in
  list_append messages system_message ;;;
  list_append messages (user_message_with_context context_chunks user_query) ;;;
  let* answer :=
    try_except
      (let* msgs := list_read messages in
       let* choices := call (ChatCompletionsCreate (completion_request msgs))
                            (chat_completions_create svc (completion_request msgs)) in
       let* answer := lift (index0 choices) in
       logger_info "Successfully generated AI response" ;;;
       ret answer)
      (fun e =>
         logger_exception "Failed to generate AI response" e ;;;
         ret (Some ("Error generating response: " +:+ exn_str e))) in
  list_append chat_history {| role := "user"; content := Some user_query |} ;;;
  list_append chat_history {| role := "assistant"; content := answer |} ;;;
  ret (answer, chat_history).

(** *** The Streamlit page *)

(** [for msg in st.session_state.chat_history: ...]. *)
Fixpoint render (msgs : list message) : M unit :=
  match msgs with
  | [] => ret tt
  | msg :: rest =>
      emit (ChatMessage (if String.eqb (role msg) "user" then "user" else "assistant")
                        (content msg)) ;;;
      render rest
  end.

(** How a run of the script ends: it reaches its last line, or
    [st.rerun()] stops it and asks for another run. *)
Inductive run_end := Finished | RerunRequested.

(** Section 6 of the module.  [session] is
    [st.session_state.chat_history] if the key is set; [prompt] is
    what [st.chat_input] returns in this run. *)
Definition page (session : option loc) (prompt : option string)
  : M (option loc * run_end) :=
  emit (SetPageConfig "Citi" "🏦") ;;;
  emit (Title "Client Manual Chatbot 🏦") ;;;
  let* chat_history :=
    match session with
    | Some h => ret h
    | None =>
        let* h := list_new [] in
        logger_info "Initialized empty chat history" ;;;
        ret h
    end in
  let* msgs := list_read chat_history in
  render msgs ;;;
  if truthy prompt
  then logger_info (" User asked: " +:+ fmt prompt) ;;;
       let* r := generate_answer (fmt prompt) chat_history in
       emit Rerun ;;;
       ret (Some (snd r), RerunRequested)
  else ret (Some chat_history, Finished).
End Handlers.

(** One run of the script, top to bottom. *)
Definition script (env : environ) (svc : services)
    (session : option loc) (prompt : option string) : M (option loc * run_end) :=
  let cfg := load_config env in
  startup cfg ;;;
  page cfg svc session prompt.

(** What Streamlit does when the user submits [user_query]: it runs the
    script with that input and, when the run asks for a rerun, runs it
    again with no input. *)
Definition submit (env : environ) (svc : services)
    (session : option loc) (user_query : string) : M (option loc) :=
  let* r := script env svc session (Some user_query) in
  match snd r with
  | RerunRequested =>
      let* r' := script env svc (fst r) None in
      ret (fst r')
  | Finished => ret (fst r)
  end.

End Query.

(** ** What the services do on a query

    These functions read off the oracles what happens inside the [try]
    block of [get_top_chunks]; they are used to state the theorems and
    are related to the code by [get_top_chunks_run]. *)

(** The exception that ends the iteration of a pager, if any. *)
Fixpoint pager_error (p : paged) : option exn :=
  match p with
  | PageEnd => None
  | PageItem _ rest => pager_error rest
  | PageError e => Some e
  end.

Section Retrieval.
Import Query.
Variable cfg : config.
Variable svc : services.
Variable query : string.
Variable top_k : Z.

(** An exception [e] is thrown during query embedding or vector
    search: by the embedding call, by [.data[0]] on an empty response,
    by the search call, or while the hits are fetched. *)
Inductive retrieval_raises (e : exn) : Prop :=
| embedding_raises :
    embeddings_create svc query (AZURE_OPENAI_EMBED_DEPLOYMENT cfg) = Raise e ->
    retrieval_raises e
| embedding_empty :
    embeddings_create svc query (AZURE_OPENAI_EMBED_DEPLOYMENT cfg) = Ok [] ->
    e = IndexError "list index out of range" ->
    retrieval_raises e
| search_raises v data :
    embeddings_create svc query (AZURE_OPENAI_EMBED_DEPLOYMENT cfg) = Ok (v :: data) ->
    search svc (vector_search_request v top_k) = Raise e ->
    retrieval_raises e
| paging_raises v data pg :
    embeddings_create svc query (AZURE_OPENAI_EMBED_DEPLOYMENT cfg) = Ok (v :: data) ->
    search svc (vector_search_request v top_k) = Ok pg ->
    pager_error pg = Some e ->
    retrieval_raises e.

(** The service calls of the [try] block, in order. *)
Definition retrieval_calls : list event :=
  EmbeddingsCreate query (AZURE_OPENAI_EMBED_DEPLOYMENT cfg) ::
  match embeddings_create svc query (AZURE_OPENAI_EMBED_DEPLOYMENT cfg) with
  | Ok (v :: _) => [Search (vector_search_request v top_k)]
  | _ => []
  end.

(** What the [try] block evaluates to. *)
Definition retrieval_outcome : result (list string) :=
  match embeddings_create svc query (AZURE_OPENAI_EMBED_DEPLOYMENT cfg) with
  | Raise e => Raise e
  | Ok data =>
      match index0 data with
      | Raise e => Raise e
      | Ok v =>
          match search svc (vector_search_request v top_k) with
          | Raise e => Raise e
          | Ok pg => collect pg []
          end
      end
  end.

(** The log record that closes [get_top_chunks]. *)
Definition retrieval_log : event :=
  match retrieval_outcome with
  | Ok chunks =>
      Log INFO (" Retrieved " +:+ str_of_Z (Z.of_nat (length chunks)) +:+
                " chunks for query: " +:+ query) None
  | Raise e => Log ERROR "Error occurred during vector search" (Some e)
  end.

(** The list [get_top_chunks] returns. *)
Definition retrieved : list string :=
  match retrieval_outcome with
  | Ok chunks => chunks
  | Raise _ => []
  end.
End Retrieval.

Section Completion.
Import Query.
Variable cfg : config.
Variable svc : services.
Variable prompt : list message.

(** What the second [try] block of [generate_answer] evaluates to when
    [prompt] is sent. *)
Definition completion_outcome : result (option string) :=
  match chat_completions_create svc (completion_request cfg prompt) with
  | Raise e => Raise e
  | Ok choices => index0 choices
  end.

(** The answer [generate_answer] returns. *)
Definition answer_of : option string :=
  match completion_outcome with
  | Ok answer => answer
  | Raise e => Some ("Error generating response: " +:+ exn_str e)
  end.

(** The log record written after the call. *)
Definition completion_log : event :=
  match completion_outcome with
  | Ok _ => Log INFO "Successfully generated AI response" None
  | Raise e => Log ERROR "Failed to generate AI response" (Some e)
  end.
End Completion.

(** The messages sent to the chat model for [user_query] when the
    caller's history holds [hist]. *)
Definition prompt_for cfg svc (user_query : string) (hist : list message) : list message :=
  hist ++ [ Query.system_message;
            Query.user_message_with_context (retrieved cfg svc user_query 10) user_query ].

Section CompletionRaises.
Import Query.
Variable cfg : config.
Variable svc : services.
Variable prompt : list message.

(** An exception [e] is thrown while the answer is generated: by the
    chat-completion call, or by [.choices[0]] on an empty response. *)
Inductive completion_raises (e : exn) : Prop :=
| chat_raises :
    chat_completions_create svc (completion_request cfg prompt) = Raise e ->
    completion_raises e
| no_choices :
    chat_completions_create svc (completion_request cfg prompt) = Ok [] ->
    e = IndexError "list index out of range" ->
    completion_raises e.
End CompletionRaises.

(** An exception [e] is thrown inside the [try] block of
    [create_index.py]: while the index names are listed, while the old
    index is deleted, or while the new one is created. *)
Inductive index_creation_raises (svc : CreateIndexScript.services) (name : string) (e : exn)
  : Prop :=
| listing_raises :
    CreateIndexScript.list_index_names svc = Raise e ->
    index_creation_raises svc name e
| deleting_raises names :
    CreateIndexScript.list_index_names svc = Ok names ->
    existsb (String.eqb name) names = true ->
    CreateIndexScript.delete_index svc name = Raise e ->
    index_creation_raises svc name e
| creating_raises names :
    CreateIndexScript.list_index_names svc = Ok names ->
    (existsb (String.eqb name) names = true ->
     CreateIndexScript.delete_index svc name = Ok tt) ->
    CreateIndexScript.create_index svc (CreateIndexScript.index name) = Raise e ->
    index_creation_raises svc name e.

(** ** Python values as a caller sees them

    [get_top_chunks] returns a list of strings and [generate_answer] an
    answer that is a string or [None]; the two embeddings below place
    them in one universe of values, in which being a string can be
    asked of either. *)
Inductive pyvalue : Type :=
| PyNone
| PyStr (s : string)
| PyStrList (l : list string).

Definition py_of_chunks (chunks : list string) : pyvalue := PyStrList chunks.

Definition py_of_answer (answer : option string) : pyvalue :=
  match answer with
  | None => PyNone
  | Some s => PyStr s
  end.

(** The requests sent to the chat model in a trace, in order. *)
Definition chat_requests (tr : list event) : list chat_request :=
  omap (fun e => match e with ChatCompletionsCreate req => Some req | _ => None end) tr.

(** ** Configuration *)

(** The variable [name] is unset or set to the empty string. *)
Definition unset_or_empty (env : environ) (name : string) : Prop :=
  env !! name = None \/ env !! name = Some "".

(** Every variable of [names] is set to a non-empty string. *)
Definition configured (env : environ) (names : list string) : Prop :=
  Forall (fun name => truthy (getenv env name) = true) names.

(** ** The steps of the ingestion pipeline in a trace *)

Definition is_pipeline_step (e : event) : bool :=
  match e with
  | LoadData _ | GetNodesFromDocuments _ _ _ | BuildIndex _ _ _ => true
  | _ => false
  end.

Definition pipeline_steps (tr : list event) : list event :=
  List.filter is_pipeline_step tr.

(** ** The clients of the ingestion script in a trace *)

(** The three client objects [ingest.py] constructs between loading and
    splitting. *)
Definition ingest_clients (env : environ) : list event :=
  [ NewClient "AzureOpenAIEmbedding"
      [("model", Some "text-embedding-3-large");
       ("deployment_name", getenv env "AZURE_OPENAI_EMBED_DEPLOYMENT");
       ("api_key", getenv env "AZURE_OPENAI_API_KEY");
       ("azure_endpoint", getenv env "AZURE_OPENAI_ENDPOINT");
       ("api_version", getenv env "OPENAI_API_VERSION")];
    NewClient "SearchClient"
      [("endpoint", getenv env "AZURE_SEARCH_ENDPOINT");
       ("index_name", getenv env "AZURE_SEARCH_INDEX");
       ("credential", getenv env "AZURE_SEARCH_API_KEY")];
    NewClient "AzureAISearchVectorStore"
      [("id_field_key", Some "doc_id");
       ("chunk_field_key", Some "content");
       ("embedding_field_key", Some "embedding");
       ("metadata_string_field_key", Some "metadata");
       ("doc_id_field_key", Some "doc_id")] ].

(** ** The Streamlit page in a trace *)

(** The clients constructed and the page header drawn at the start of
    each run of [query.py]. *)
Definition page_header (cfg : Query.config) : list event :=
  [ NewClient "AzureOpenAI"
      [("api_key", Query.AZURE_OPENAI_KEY cfg);
       ("api_version", Some "2024-12-01-preview");
       ("azure_endpoint", Query.AZURE_OPENAI_ENDPOINT cfg)];
    NewClient "SearchClient"
      [("endpoint", Query.AZURE_SEARCH_ENDPOINT cfg);
       ("index_name", Query.AZURE_SEARCH_INDEX cfg);
       ("credential", Query.AZURE_SEARCH_API_KEY cfg)];
    SetPageConfig "Citi" "🏦";
    Title "Client Manual Chatbot 🏦" ].

(** The chat bubbles drawn for a history. *)
Definition rendering (msgs : list message) : list event :=
  map (fun msg =>
         ChatMessage (if String.eqb (role msg) "user" then "user" else "assistant")
                     (content msg))
      msgs.

(** ** Running a module as a script

    [python -m src.indexing.create_index] and
    [python -m src.ingesting.ingest] run the module body; each body
    installs [_handle] as [sys.excepthook] in its first lines, so an
    exception that leaves the body is passed to [_handle] and the
    process ends with status 1.  [mro] gives the class of an exception
    as its method resolution order. *)
Definition run_as_script (mro : exn -> list string) (body : M unit)
  : world -> Z * option LoggerConfig.hook_outcome * world :=
  fun w =>
    match body w with
    | (Ok _, w') => (0%Z, None, w')
    | (Raise e, w') =>
        match LoggerConfig._handle (mro e) e w' with
        | (Ok o, w'') => (1%Z, Some o, w'')
        | (Raise _, w'') => (1%Z, None, w'')
        end
    end.

(** ** Concrete inputs

    A small configuration, a few behaviours of the services and a
    starting world, on which the theorems below are instantiated. *)

Module Demo.

Definition env : environ :=
  list_to_map
    [ ("AZURE_OPENAI_ENDPOINT", "https://aoai.example");
      ("AZURE_OPENAI_API_KEY", "k1");
      ("AZURE_OPENAI_EMBED_DEPLOYMENT", "text-embedding-3-large");
      ("AZURE_SEARCH_ENDPOINT", "https://search.example");
      ("AZURE_SEARCH_API_KEY", "k2");
      ("AZURE_SEARCH_INDEX", "client-manual-index") ].

Definition cfg : Query.config := Query.load_config env.

Definition hit (content metadata doc_id : option string) : search_doc :=
  list_to_map [("content", content); ("metadata", metadata); ("doc_id", doc_id)].

Definition hit1 : search_doc :=
  hit (Some "Fees are listed in section 4.") (Some "manual.pdf p.12") (Some "d1").
Definition hit2 : search_doc := hit (Some "Accounts close after 90 days.") None (Some "d2").
Definition hit_empty : search_doc := hit (Some "") (Some "manual.pdf p.1") (Some "d0").

Definition connection_error : exn := Exn "APIConnectionError" "Connection error.".

(** Both services answer; the search returns three hits, one of them
    without content. *)
Definition svc : Query.services :=
  {| Query.embeddings_create := fun _ _ => Ok [[1; 2; 3]%Z];
     Query.search := fun _ => Ok (PageItem hit1 (PageItem hit_empty (PageItem hit2 PageEnd)));
     Query.chat_completions_create := fun _ => Ok [Some "See section 4."] |}.

(** No service can be reached. *)
Definition svc_down : Query.services :=
  {| Query.embeddings_create := fun _ _ => Raise connection_error;
     Query.search := fun _ => Raise connection_error;
     Query.chat_completions_create := fun _ => Raise connection_error |}.

(** The chat history of an earlier turn, at address 0. *)
Definition earlier : list message :=
  [ Message "user" (Some "Hello"); Message "assistant" (Some "Hi, how can I help?") ].

Definition w0 : world := World [] (<[0 := earlier]> ∅).

(** The index service with an index of the configured name already
    there, and the ingestion libraries on a folder with one document. *)
Definition index_svc : CreateIndexScript.services :=
  {| CreateIndexScript.search_index_client := fun _ _ => Ok tt;
     CreateIndexScript.list_index_names := Ok ["client-manual-index"];
     CreateIndexScript.delete_index := fun _ => Ok tt;
     CreateIndexScript.create_index := fun _ => Ok tt |}.

Definition ingest_svc : IngestScript.services :=
  {| IngestScript.load_data := fun _ => Ok ["Client manual, 40 pages"];
     IngestScript.get_nodes_from_documents :=
       fun _ _ docs => Ok (flat_map (fun d => [d +:+ " #1"; d +:+ " #2"]) docs);
     IngestScript.build_index := fun _ => Ok tt |}.

(** The configuration with the search key set to the empty string. *)
Definition env_no_key : environ := <["AZURE_SEARCH_API_KEY" := ""]> env.

(** The index service when the index cannot be created, a data folder
    that cannot be read, and an index that rejects the upload. *)
Definition forbidden : exn :=
  Exn "HttpResponseError" "Operation returned an invalid status 'Forbidden'".

Definition index_svc_forbidden : CreateIndexScript.services :=
  {| CreateIndexScript.search_index_client := fun _ _ => Ok tt;
     CreateIndexScript.list_index_names := Ok ["client-manual-index"];
     CreateIndexScript.delete_index := fun _ => Ok tt;
     CreateIndexScript.create_index := fun _ => Raise forbidden |}.

Definition no_folder : exn := Exn "ValueError" "Directory ./data does not exist.".

Definition ingest_svc_no_folder : IngestScript.services :=
  {| IngestScript.load_data := fun _ => Raise no_folder;
     IngestScript.get_nodes_from_documents := fun _ _ _ => Ok [];
     IngestScript.build_index := fun _ => Ok tt |}.

Definition ingest_svc_push_fails : IngestScript.services :=
  {| IngestScript.load_data := fun _ => Ok ["Client manual, 40 pages"];
     IngestScript.get_nodes_from_documents := fun _ _ docs => Ok docs;
     IngestScript.build_index := fun _ => Raise forbidden |}.

(** The [logging] module before any logger is set up. *)
Definition logging0 : LoggerConfig.logging := LoggerConfig.Logging ∅ false.

(** A log directory [/app/logs] in which every named file can be
    opened; the empty name denotes the directory itself. *)
Definition is_a_directory : exn := Exn "IsADirectoryError" "[Errno 21] Is a directory".

Definition open_log_file (log_file : string) : result string :=
  if String.eqb log_file "" then Raise is_a_directory
  else Ok ("/app/logs/" +:+ log_file).

(** An index service whose client rejects the endpoint. *)
Definition bad_endpoint : exn := Exn "ValueError" "endpoint must use the https scheme".

Definition index_svc_bad_endpoint : CreateIndexScript.services :=
  {| CreateIndexScript.search_index_client := fun _ _ => Raise bad_endpoint;
     CreateIndexScript.list_index_names := Ok [];
     CreateIndexScript.delete_index := fun _ => Ok tt;
     CreateIndexScript.create_index := fun _ => Ok tt |}.

(** A console in [cp1252]: a message is encodable when it is plain
    ASCII; otherwise the replacement is the text [?]. *)
Fixpoint is_ascii (s : string) : bool :=
  match s with
  | EmptyString => true
  | String c r => Nat.ltb (nat_of_ascii c) 128 && is_ascii r
  end.

Definition cannot_encode : exn :=
  Exn "UnicodeEncodeError" "'charmap' codec can't encode character".

Definition text : LoggerConfig.text_ops :=
  {| LoggerConfig.percent_format := fun m _ => Ok m;
     LoggerConfig.str_encode := fun _ m => if is_ascii m then Ok m else Raise cannot_encode;
     LoggerConfig.str_encode_replace := fun _ m => if is_ascii m then Ok m else Ok "?";
     LoggerConfig.bytes_decode := fun _ b => Ok b |}.

End Demo.

(** * Properties *)

(** ** The model on concrete inputs *)

Example console_utf8 :
  LoggerConfig._console_supports_utf8 (Some "UTF-8") = true /\
  LoggerConfig._console_supports_utf8 (Some "cp1252") = false /\
  LoggerConfig._console_supports_utf8 None = false.
Proof. repeat split; reflexivity. Qed.

Example chunk_with_metadata :
  Query.chunk_of Demo.hit1 =
    Some ("Fees are listed in section 4." +:+ nl +:+ "(Source: manual.pdf p.12)").
Proof. vm_compute. reflexivity. Qed.

Example chunk_without_metadata :
  Query.chunk_of Demo.hit2 =
    Some ("Accounts close after 90 days." +:+ nl +:+ "(Source: d2)").
Proof. vm_compute. reflexivity. Qed.

Example chunk_without_content : Query.chunk_of Demo.hit_empty = None.
Proof. vm_compute. reflexivity. Qed.

Example answer_on_demo :
  fst (Query.generate_answer Demo.cfg Demo.svc "What are the fees?" 0 Demo.w0) =
    Ok (Some "See section 4.", 0).
Proof. vm_compute. reflexivity. Qed.

Example answer_when_down :
  fst (Query.generate_answer Demo.cfg Demo.svc_down "What are the fees?" 0 Demo.w0) =
    Ok (Some "Error generating response: Connection error.", 0).
Proof. vm_compute. reflexivity. Qed.

Example index_recreated :
  calls (trace (snd (CreateIndexScript.main Demo.env Demo.index_svc Demo.w0))) =
    [ NewClient "SearchIndexClient"
        [("endpoint", Some "https://search.example"); ("credential", Some "k2")];
      ListIndexNames;
      DeleteIndex "client-manual-index";
      CreateIndex (CreateIndexScript.index "client-manual-index") ].
Proof. vm_compute. reflexivity. Qed.

(** ** Traces *)

Lemma calls_app (a b : list event) : calls (a ++ b) = calls a ++ calls b.
Proof. unfold calls. apply List.filter_app. Qed.

(** ** Chunk retrieval *)

Lemma collect_acc (pg : paged) (acc : list string) :
  Query.collect pg acc =
    match pager_error pg with
    | Some e => Raise e
    | None => Ok (acc ++ omap Query.chunk_of (yielded pg))
    end.
Proof.
  revert acc. induction pg as [| r rest IH | e]; intros acc; simpl.
  - by rewrite app_nil_r.
  - destruct (Query.chunk_of r) as [c|] eqn:Hc; rewrite IH;
      destruct (pager_error rest); try done.
    by rewrite <- app_assoc.
  - done.
Qed.

Lemma get_top_chunks_run cfg svc query top_k w :
  Query.get_top_chunks cfg svc query top_k w =
    (Ok (retrieved cfg svc query top_k),
     World (trace w ++
              Log INFO (" Retrieving top " +:+ str_of_Z top_k +:+
                        " chunks for query: " +:+ query) None ::
              retrieval_calls cfg svc query top_k ++
              [retrieval_log cfg svc query top_k])
           (heap w)).
Proof.
  unfold Query.get_top_chunks, retrieved, retrieval_log, retrieval_outcome, retrieval_calls.
  cbv [bind try_except call emit lift ret logger_info logger_exception trace heap].
  destruct (Query.embeddings_create svc query _) as [[|v data]|e]; cbn [index0].
  - by rewrite <- !app_assoc.
  - destruct (Query.search svc _) as [pg|e].
    + destruct (Query.collect pg []) as [chunks|e]; by rewrite <- !app_assoc.
    + by rewrite <- !app_assoc.
  - by rewrite <- !app_assoc.
Qed.

Lemma retrieval_raises_outcome cfg svc query top_k e :
  retrieval_raises cfg svc query top_k e <-> retrieval_outcome cfg svc query top_k = Raise e.
Proof.
  unfold retrieval_outcome. split.
  - intros [H | H -> | v data H Hs | v data pg H Hs Hp]; rewrite H; simpl; try done.
    + by rewrite Hs.
    + by rewrite Hs, collect_acc, Hp.
  - destruct (Query.embeddings_create svc query _) as [[|v data]|e0] eqn:He; simpl.
    + intros [= <-]. by apply embedding_empty.
    + destruct (Query.search svc _) as [pg|e0] eqn:Hs.
      * rewrite collect_acc. destruct (pager_error pg) as [e0|] eqn:Hp; [|done].
        intros [= <-]. by eapply paging_raises.
      * intros [= <-]. by eapply search_raises.
    + intros [= <-]. by apply embedding_raises.
Qed.

(** C9. [get_top_chunks] never raises: on every input it returns a
    list, and when an exception is thrown during query embedding or
    vector search, that exception is logged (a [logger.exception]
    record is the last thing written) and the list returned is empty. *)
Theorem get_top_chunks_never_raises cfg svc query top_k w :
  exists chunks w',
    Query.get_top_chunks cfg svc query top_k w = (Ok chunks, w') /\
    forall e, retrieval_raises cfg svc query top_k e ->
      chunks = [] /\
      last (trace w') = Some (Log ERROR "Error occurred during vector search" (Some e)).
Proof.
  rewrite get_top_chunks_run. eexists _, _. split; [reflexivity|].
  intros e He%retrieval_raises_outcome.
  unfold retrieved, retrieval_log. rewrite He. split; [done|].
  cbn [trace]. rewrite app_comm_cons, app_assoc. apply last_snoc.
Qed.

Lemma get_top_chunks_never_raises_witness :
  retrieval_raises Demo.cfg Demo.svc_down "What are the fees?" 10 Demo.connection_error /\
  exists w',
    Query.get_top_chunks Demo.cfg Demo.svc_down "What are the fees?" 10 Demo.w0 = (Ok [], w') /\
    last (trace w') =
      Some (Log ERROR "Error occurred during vector search" (Some Demo.connection_error)).
Proof.
  assert (Hr : retrieval_raises Demo.cfg Demo.svc_down "What are the fees?" 10
                 Demo.connection_error) by (apply embedding_raises; reflexivity).
  split; [exact Hr|].
  destruct (get_top_chunks_never_raises Demo.cfg Demo.svc_down "What are the fees?" 10 Demo.w0)
    as (chunks & w' & Hrun & Hfail).
  destruct (Hfail _ Hr) as [-> Hlast].
  exists w'. split; assumption.
Defined.

Lemma length_omap_le {A B} (f : A -> option B) (l : list A) :
  length (omap f l) <= length l.
Proof.
  induction l as [|x l IH]; [done|].
  change (omap f (x :: l)) with (match f x with Some y => y :: omap f l | None => omap f l end).
  destruct (f x); simpl; lia.
Qed.

(** The list returned when nothing raises: one chunk for each hit with
    non-empty content, in the order of the hits. *)
Lemma retrieved_hits cfg svc query top_k v data pg :
  Query.embeddings_create svc query (Query.AZURE_OPENAI_EMBED_DEPLOYMENT cfg) = Ok (v :: data) ->
  Query.search svc (Query.vector_search_request v top_k) = Ok pg ->
  retrieved cfg svc query top_k =
    match pager_error pg with
    | Some _ => []
    | None => omap Query.chunk_of (yielded pg)
    end.
Proof.
  intros He Hs. unfold retrieved, retrieval_outcome. rewrite He; simpl.
  rewrite Hs, collect_acc. by destruct (pager_error pg).
Qed.

(** [omap] of two functions that agree everywhere. *)
Lemma omap_ext_eq {A B} (f g : A -> option B) (l : list A) :
  (forall x, f x = g x) -> omap f l = omap g l.
Proof.
  intros Hfg. induction l as [|x l IH]; [done|].
  change (omap f (x :: l)) with (match f x with Some y => y :: omap f l | None => omap f l end).
  change (omap g (x :: l)) with (match g x with Some y => y :: omap g l | None => omap g l end).
  by rewrite Hfg, IH.
Qed.

(** The chunk of a hit, written out. *)
Lemma chunk_of_spelled (r : search_doc) :
  Query.chunk_of r =
    match r !! "content" with
    | Some (Some s) =>
        if String.eqb s "" then None
        else Some (s +:+ nl +:+ "(Source: " +:+
                   fmt (py_or (default (Some "") (r !! "metadata"))
                              (default (Some "") (r !! "doc_id"))) +:+ ")")
    | _ => None
    end.
Proof.
  unfold Query.chunk_of, Query.get.
  destruct (r !! "content") as [[s|]|]; simpl; try done.
  by destruct (String.eqb s "").
Qed.



(** ** Answer generation *)

Lemma context_text_concat (chunks : list string) :
  Query.context_text chunks = String.concat nl chunks.
Proof. by destruct chunks. Qed.

(** One call of [generate_answer], step by step: the log records and
    service calls it adds to the trace, the copy it allocates at a fresh
    address, and the two entries it appends to the caller's list. *)
Lemma generate_answer_run cfg svc user_query h hist w :
  heap w !! h = Some hist ->
  let m := fresh (dom (heap w)) in
  let prompt := prompt_for cfg svc user_query hist in
  let answer := answer_of cfg svc prompt in
  Query.generate_answer cfg svc user_query h w =
    (Ok (answer, h),
     World (trace w ++
              Log INFO ("Generating answer for user query: " +:+ user_query) None ::
              Log INFO (" Retrieving top " +:+ str_of_Z 10 +:+
                        " chunks for query: " +:+ user_query) None ::
              retrieval_calls cfg svc user_query 10 ++
              [ retrieval_log cfg svc user_query 10;
                ChatCompletionsCreate (Query.completion_request cfg prompt);
                completion_log cfg svc prompt ])
           (<[h := hist ++ [ Message "user" (Some user_query); Message "assistant" answer ]]>
              (<[m := prompt]> (heap w)))).
Proof.
  intros Hh m prompt answer.
  assert (Hm : heap w !! m = None) by (apply not_elem_of_dom, is_fresh).
  assert (Hne : m <> h) by (intros Heq; rewrite Heq in Hm; congruence).
  unfold Query.generate_answer.
  cbv [bind logger_info emit]. cbn [trace heap].
  rewrite get_top_chunks_run.
  cbv [deepcopy bind list_read list_new list_append try_except call emit lift ret
       logger_info logger_exception]. cbn [trace heap].
  fold m. rewrite Hh.
  rewrite !lookup_insert_eq. cbn [default from_option id].
  rewrite !insert_insert_eq. rewrite <- !app_assoc. cbn [app].
  fold (prompt_for cfg svc user_query hist). fold prompt.
  unfold answer, answer_of, completion_log, completion_outcome.
  destruct (Query.chat_completions_create svc _) as [[|a choices]|e]; cbn [index0 heap trace];
    rewrite !(lookup_insert_ne _ m h) by exact Hne; rewrite Hh; cbn [default from_option id];
    rewrite !lookup_insert_eq; cbn [default from_option id];
    rewrite (insert_insert_eq _ h);
    repeat first [rewrite <- app_assoc | progress cbn [app]]; reflexivity.
Qed.

Lemma chat_requests_app (a b : list event) :
  chat_requests (a ++ b) = chat_requests a ++ chat_requests b.
Proof. apply omap_app. Qed.

Lemma chat_requests_retrieval cfg svc query top_k :
  chat_requests (retrieval_calls cfg svc query top_k) = [].
Proof.
  unfold retrieval_calls.
  by destruct (Query.embeddings_create svc query _) as [[|v data]|e].
Qed.

Lemma chat_requests_generate_answer cfg svc user_query h hist w :
  heap w !! h = Some hist ->
  chat_requests (trace (snd (Query.generate_answer cfg svc user_query h w))) =
    chat_requests (trace w) ++
    [Query.completion_request cfg (prompt_for cfg svc user_query hist)].
Proof.
  intros Hh. rewrite (generate_answer_run _ _ _ _ _ _ Hh). cbn [snd trace].
  rewrite chat_requests_app. f_equal.
  change (chat_requests (?a :: ?b :: ?l)) with (chat_requests l).
  rewrite chat_requests_app, chat_requests_retrieval. cbn [app].
  unfold retrieval_log, completion_log.
  destruct (retrieval_outcome _ _ _ _);
    by destruct (completion_outcome cfg svc (prompt_for cfg svc user_query hist)).
Qed.

Lemma get_top_chunks_retrieved cfg svc query top_k w :
  fst (Query.get_top_chunks cfg svc query top_k w) = Ok (retrieved cfg svc query top_k).
Proof. by rewrite get_top_chunks_run. Qed.

(** C1. For every user query and every prior chat history,
    [generate_answer] sends to the chat-completion API the prior history,
    then one system instruction message, then one user message whose
    content is ["Context:\n"], the retrieved chunks joined with newlines,
    ["\n\nQuestion: "] and the user's question.  The list it sends is a
    copy: a list object at an address [m] that did not exist before the
    call and differs from the caller's list [h]. *)
Theorem generate_answer_prompt cfg svc user_query h hist w :
  heap w !! h = Some hist ->
  exists context_chunks answer w' m,
    (forall w0, fst (Query.get_top_chunks cfg svc user_query 10 w0) = Ok context_chunks) /\
    Query.generate_answer cfg svc user_query h w = (Ok (answer, h), w') /\
    chat_requests (trace w') =
      chat_requests (trace w) ++
      [ {| model := Query.AZURE_OPENAI_CHAT_DEPLOYMENT cfg;
           messages :=
             hist ++
             [ Message "system" (Some Query.system_instruction);
               Message "user"
                 (Some ("Context:" +:+ nl +:+ String.concat nl context_chunks +:+ nl +:+ nl +:+
                        "Question: " +:+ user_query)) ];
           temperature := Decimal 2 1;
           max_tokens := 1000 |} ] /\
    m <> h /\
    heap w !! m = None /\
    heap w' !! m =
      Some (hist ++
            [ Message "system" (Some Query.system_instruction);
              Message "user"
                (Some ("Context:" +:+ nl +:+ String.concat nl context_chunks +:+ nl +:+ nl +:+
                       "Question: " +:+ user_query)) ]).
Proof.
  intros Hh.
  assert (Hm : heap w !! fresh (dom (heap w)) = None) by (apply not_elem_of_dom, is_fresh).
  assert (Hne : fresh (dom (heap w)) <> h) by (intros Heq; rewrite Heq in Hm; congruence).
  pose proof (chat_requests_generate_answer cfg svc user_query h hist w Hh) as Hreq.
  rewrite (generate_answer_run _ _ _ _ _ _ Hh) in *.
  eexists (retrieved cfg svc user_query 10), _, _, (fresh (dom (heap w))).
  split; [intros w0; apply get_top_chunks_retrieved|].
  split; [reflexivity|].
  cbn [snd] in Hreq. rewrite Hreq. cbn [heap].
  unfold prompt_for, Query.completion_request, Query.user_message_with_context,
    Query.system_message.
  rewrite context_text_concat.
  split; [reflexivity|]. split; [exact Hne|]. split; [exact Hm|].
  rewrite lookup_insert_ne by (intros Heq; apply Hne; by rewrite Heq).
  apply lookup_insert_eq.
Qed.

Lemma generate_answer_prompt_witness :
  exists req,
    chat_requests
      (trace (snd (Query.generate_answer Demo.cfg Demo.svc "What are the fees?" 0 Demo.w0)))
      = [req] /\
    firstn 2 (messages req) = Demo.earlier /\
    length (messages req) = 4.
Proof.
  destruct (generate_answer_prompt Demo.cfg Demo.svc "What are the fees?" 0 Demo.earlier Demo.w0)
    as (chunks & answer & w' & m & _ & Hrun & Hreq & _); [reflexivity|].
  rewrite Hrun. cbn [snd]. rewrite Hreq. eexists. split; [reflexivity|].
  split; reflexivity.
Defined.

(** C6. For every user query, [generate_answer] calls the chat model
    exactly once, with the retrieved chunks as the context of the final
    user message.  When retrieval returns no chunks, and in particular
    when it failed, the context portion is the empty string and the chat
    model is called all the same. *)
Theorem generate_answer_calls_chat_once cfg svc user_query h hist w :
  heap w !! h = Some hist ->
  exists context_chunks answer w' req,
    (forall w0, fst (Query.get_top_chunks cfg svc user_query 10 w0) = Ok context_chunks) /\
    Query.generate_answer cfg svc user_query h w = (Ok (answer, h), w') /\
    chat_requests (trace w') = chat_requests (trace w) ++ [req] /\
    last (messages req) =
      Some (Message "user"
              (Some ("Context:" +:+ nl +:+ String.concat nl context_chunks +:+ nl +:+ nl +:+
                     "Question: " +:+ user_query))) /\
    (context_chunks = [] ->
     last (messages req) =
       Some (Message "user"
               (Some ("Context:" +:+ nl +:+ "" +:+ nl +:+ nl +:+
                      "Question: " +:+ user_query)))) /\
    (forall e, retrieval_raises cfg svc user_query 10 e -> context_chunks = []).
Proof.
  intros Hh.
  pose proof (chat_requests_generate_answer cfg svc user_query h hist w Hh) as Hreq.
  rewrite (generate_answer_run _ _ _ _ _ _ Hh) in *. cbn [snd] in Hreq.
  eexists (retrieved cfg svc user_query 10), _, _, _.
  split; [intros w0; apply get_top_chunks_retrieved|].
  split; [reflexivity|]. split; [exact Hreq|].
  assert (Hlast : last (messages (Query.completion_request cfg
                                    (prompt_for cfg svc user_query hist))) =
                  Some (Message "user"
                          (Some ("Context:" +:+ nl +:+
                                 String.concat nl (retrieved cfg svc user_query 10) +:+
                                 nl +:+ nl +:+ "Question: " +:+ user_query)))).
  { cbn [messages Query.completion_request]. unfold prompt_for.
    change (hist ++ [?a; ?b]) with (hist ++ [a] ++ [b]).
    rewrite app_assoc, last_snoc.
    unfold Query.user_message_with_context. by rewrite context_text_concat. }
  split; [exact Hlast|]. split.
  - intros Hnil. rewrite Hlast, Hnil. reflexivity.
  - intros e He%retrieval_raises_outcome. unfold retrieved. by rewrite He.
Qed.

Lemma generate_answer_calls_chat_once_witness :
  exists req,
    chat_requests
      (trace (snd (Query.generate_answer Demo.cfg Demo.svc_down "What are the fees?" 0 Demo.w0)))
      = [req] /\
    last (messages req) =
      Some (Message "user"
              (Some ("Context:" +:+ nl +:+ "" +:+ nl +:+ nl +:+
                     "Question: " +:+ "What are the fees?"))).
Proof.
  destruct (generate_answer_calls_chat_once Demo.cfg Demo.svc_down "What are the fees?"
              0 Demo.earlier Demo.w0)
    as (chunks & answer & w' & req & _ & Hrun & Hreq & _ & Hempty & Hfail); [reflexivity|].
  exists req. rewrite Hrun. cbn [snd]. split; [exact Hreq|].
  apply Hempty, (Hfail Demo.connection_error).
  apply embedding_raises. reflexivity.
Defined.

Lemma string_length_app (a b : string) :
  String.length (a +:+ b) = String.length a + String.length b.
Proof. induction a as [|c a IH]; simpl; [done|]. by rewrite IH. Qed.

(** The final user message is never the bare question. *)
Lemma context_message_not_question (chunks : list string) (user_query : string) :
  ("Context:" +:+ nl +:+ Query.context_text chunks +:+ nl +:+ nl +:+
     "Question: " +:+ user_query) <> user_query.
Proof.
  intros Heq. apply (f_equal String.length) in Heq.
  rewrite !string_length_app in Heq. simpl in Heq. lia.
Qed.

(** C8. A call [generate_answer(user_query, chat_history)] returns the
    list object it was given, and changes it only by appending two
    entries: the user's question, then the assistant's answer, the one
    it returns.  The earlier entries are as before, every other list
    that existed is as before, and neither appended entry is the system
    instruction or the user message with the context attached. *)
Theorem generate_answer_history_frame cfg svc user_query h hist w :
  heap w !! h = Some hist ->
  exists context_chunks answer w',
    (forall w0, fst (Query.get_top_chunks cfg svc user_query 10 w0) = Ok context_chunks) /\
    Query.generate_answer cfg svc user_query h w = (Ok (answer, h), w') /\
    heap w' !! h =
      Some (hist ++ [ Message "user" (Some user_query); Message "assistant" answer ]) /\
    (forall l, l <> h -> is_Some (heap w !! l) -> heap w' !! l = heap w !! l) /\
    (Query.system_message ∉
       [ Message "user" (Some user_query); Message "assistant" answer ]) /\
    (Query.user_message_with_context context_chunks user_query ∉
       [ Message "user" (Some user_query); Message "assistant" answer ]).
Proof.
  intros Hh.
  assert (Hm : heap w !! fresh (dom (heap w)) = None) by (apply not_elem_of_dom, is_fresh).
  rewrite (generate_answer_run _ _ _ _ _ _ Hh).
  eexists (retrieved cfg svc user_query 10), _, _.
  split; [intros w0; apply get_top_chunks_retrieved|].
  split; [reflexivity|]. cbn [heap].
  split; [apply lookup_insert_eq|]. split; [|split].
  - intros l Hl [x Hx]. rewrite lookup_insert_ne by done.
    apply lookup_insert_ne. intros Heq. rewrite Heq in Hm. congruence.
  - unfold Query.system_message.
    intros [Heq|[Heq|Hnil%elem_of_nil]%elem_of_cons]%elem_of_cons; [| |done];
      by apply (f_equal role) in Heq.
  - unfold Query.user_message_with_context.
    intros [Heq|[Heq|Hnil%elem_of_nil]%elem_of_cons]%elem_of_cons; [| |done].
    + apply (f_equal content) in Heq. cbn [content] in Heq.
      injection Heq as Heq. by apply context_message_not_question in Heq.
    + by apply (f_equal role) in Heq.
Qed.

Lemma generate_answer_history_frame_witness :
  let r := Query.generate_answer Demo.cfg Demo.svc "What are the fees?" 0 Demo.w0 in
  exists answer,
    fst r = Ok (answer, 0) /\
    heap (snd r) !! 0 =
      Some (Demo.earlier ++
            [ Message "user" (Some "What are the fees?"); Message "assistant" answer ]).
Proof.
  destruct (generate_answer_history_frame Demo.cfg Demo.svc "What are the fees?"
              0 Demo.earlier Demo.w0)
    as (chunks & answer & w' & _ & Hrun & Hhist & _); [reflexivity|].
  exists answer. cbv zeta. rewrite Hrun. split; [reflexivity|exact Hhist].
Defined.

(** ** Configuration checks *)

Lemma unset_or_empty_falsy env name :
  unset_or_empty env name -> truthy (getenv env name) = false.
Proof. unfold getenv. by intros [-> | ->]. Qed.

(** Evaluates a script up to its first raise or its last line. *)
Ltac run_script :=
  cbv [bind raise try_except call emit lift ret
       logger_debug logger_info logger_error logger_exception];
  cbn [negb orb andb trace heap].

(** C5. At the start of each module, if a required configuration
    variable is unset or empty (the Azure Search endpoint and key in all
    three modules; also the index name, the Azure OpenAI endpoint and key
    in the ingestion and query modules; also the embedding deployment in
    the ingestion module), the module logs one error and raises
    [ValueError]: the error record is all it adds to the trace, so no
    client is constructed and no service is contacted. *)
Theorem missing_configuration_raises env name w :
  unset_or_empty env name ->
  (name ∈ ["AZURE_SEARCH_ENDPOINT"; "AZURE_SEARCH_API_KEY"] ->
   forall svc, exists log_msg msg,
     CreateIndexScript.main env svc w =
       (Raise (ValueError msg), World (trace w ++ [Log ERROR log_msg None]) (heap w))) /\
  (name ∈ ["AZURE_SEARCH_ENDPOINT"; "AZURE_SEARCH_API_KEY"; "AZURE_SEARCH_INDEX";
           "AZURE_OPENAI_ENDPOINT"; "AZURE_OPENAI_API_KEY";
           "AZURE_OPENAI_EMBED_DEPLOYMENT"] ->
   forall svc, exists log_msg msg,
     IngestScript.main env svc w =
       (Raise (ValueError msg), World (trace w ++ [Log ERROR log_msg None]) (heap w))) /\
  (name ∈ ["AZURE_SEARCH_ENDPOINT"; "AZURE_SEARCH_API_KEY"; "AZURE_SEARCH_INDEX";
           "AZURE_OPENAI_ENDPOINT"; "AZURE_OPENAI_API_KEY"] ->
   forall svc session prompt, exists log_msg msg,
     Query.script env svc session prompt w =
       (Raise (ValueError msg), World (trace w ++ [Log ERROR log_msg None]) (heap w))).
Proof.
  intros Hfalsy%unset_or_empty_falsy. split; [|split]; intros Hname.
  - intros svc. unfold CreateIndexScript.main.
    destruct (truthy (getenv env "AZURE_SEARCH_ENDPOINT")) eqn:H1;
    destruct (truthy (getenv env "AZURE_SEARCH_API_KEY")) eqn:H2;
      run_script; try (eexists _, _; reflexivity).
    exfalso. set_unfold in Hname. destruct_or!; subst; congruence.
  - intros svc. unfold IngestScript.main.
    destruct (truthy (getenv env "AZURE_SEARCH_ENDPOINT")) eqn:H1;
    destruct (truthy (getenv env "AZURE_SEARCH_API_KEY")) eqn:H2;
    destruct (truthy (getenv env "AZURE_SEARCH_INDEX")) eqn:H3;
      run_script; try (eexists _, _; reflexivity).
    destruct (truthy (getenv env "AZURE_OPENAI_ENDPOINT")) eqn:H4;
    destruct (truthy (getenv env "AZURE_OPENAI_API_KEY")) eqn:H5;
    destruct (truthy (getenv env "AZURE_OPENAI_EMBED_DEPLOYMENT")) eqn:H6;
      run_script; try (eexists _, _; reflexivity).
    exfalso. set_unfold in Hname. destruct_or!; subst; congruence.
  - intros svc session prompt. unfold Query.script, Query.startup, Query.load_config.
    cbn [Query.AZURE_OPENAI_ENDPOINT Query.AZURE_OPENAI_KEY Query.AZURE_SEARCH_ENDPOINT
         Query.AZURE_SEARCH_API_KEY Query.AZURE_SEARCH_INDEX].
    destruct (truthy (getenv env "AZURE_OPENAI_ENDPOINT")) eqn:H4;
    destruct (truthy (getenv env "AZURE_OPENAI_API_KEY")) eqn:H5;
      run_script; try (eexists _, _; reflexivity).
    destruct (truthy (getenv env "AZURE_SEARCH_ENDPOINT")) eqn:H1;
    destruct (truthy (getenv env "AZURE_SEARCH_API_KEY")) eqn:H2;
    destruct (truthy (getenv env "AZURE_SEARCH_INDEX")) eqn:H3;
      run_script; try (eexists _, _; reflexivity).
    exfalso. set_unfold in Hname. destruct_or!; subst; congruence.
Qed.

Lemma missing_configuration_raises_witness :
  unset_or_empty Demo.env_no_key "AZURE_SEARCH_API_KEY" /\
  (exists log_msg msg,
     CreateIndexScript.main Demo.env_no_key Demo.index_svc Demo.w0 =
       (Raise (ValueError msg), World [Log ERROR log_msg None] (heap Demo.w0))) /\
  (exists log_msg msg,
     IngestScript.main Demo.env_no_key Demo.ingest_svc Demo.w0 =
       (Raise (ValueError msg), World [Log ERROR log_msg None] (heap Demo.w0))) /\
  (exists log_msg msg,
     Query.script Demo.env_no_key Demo.svc (Some 0) (Some "What are the fees?") Demo.w0 =
       (Raise (ValueError msg), World [Log ERROR log_msg None] (heap Demo.w0))).
Proof.
  assert (Hunset : unset_or_empty Demo.env_no_key "AZURE_SEARCH_API_KEY")
    by (right; reflexivity).
  destruct (missing_configuration_raises Demo.env_no_key "AZURE_SEARCH_API_KEY" Demo.w0 Hunset)
    as (Hindex & Hingest & Hquery).
  split; [exact Hunset|]. split; [|split].
  - apply Hindex. set_solver.
  - apply Hingest. set_solver.
  - apply Hquery. set_solver.
Defined.

(** ** Ingestion *)

Lemma pipeline_steps_app (a b : list event) :
  pipeline_steps (a ++ b) = pipeline_steps a ++ pipeline_steps b.
Proof. unfold pipeline_steps. apply List.filter_app. Qed.

Ltac use_configured H :=
  unfold configured in H;
  repeat match type of H with
         | Forall _ (_ :: _) =>
             let H1 := fresh "Hset" in
             apply Forall_cons in H as [H1 H]
         end;
  clear H.

(** C7. The ingestion script loads the documents of [./data], then has
    the sentence splitter (chunk size 1000, overlap 100) split exactly
    the loaded documents, then hands the index builder exactly the nodes
    the splitter produced, so as many chunks are pushed as the splitter
    made; when the builder succeeds the script ends normally after
    logging that number. *)
Theorem ingest_pipeline_order env svc w docs nodes :
  configured env ["AZURE_SEARCH_ENDPOINT"; "AZURE_SEARCH_API_KEY"; "AZURE_SEARCH_INDEX";
                  "AZURE_OPENAI_ENDPOINT"; "AZURE_OPENAI_API_KEY";
                  "AZURE_OPENAI_EMBED_DEPLOYMENT"] ->
  IngestScript.load_data svc "./data" = Ok docs ->
  IngestScript.get_nodes_from_documents svc 1000 100 docs = Ok nodes ->
  exists r w' pushed,
    IngestScript.main env svc w = (r, w') /\
    pipeline_steps (trace w') =
      pipeline_steps (trace w) ++
      [ LoadData "./data";
        GetNodesFromDocuments 1000 100 docs;
        BuildIndex pushed (getenv env "AZURE_SEARCH_INDEX")
                   (getenv env "AZURE_OPENAI_EMBED_DEPLOYMENT") ] /\
    pushed = nodes /\
    length pushed = length nodes /\
    (IngestScript.build_index svc nodes = Ok tt ->
     r = Ok tt /\
     last (trace w') =
       Some (Log INFO ("Successfully pushed " +:+ str_of_Z (Z.of_nat (length nodes)) +:+
                       " chunks into Azure AI Search index '" +:+
                       fmt (getenv env "AZURE_SEARCH_INDEX") +:+ "'") None)).
Proof.
  intros Hcfg Hload Hsplit. use_configured Hcfg.
  unfold IngestScript.main, IngestScript.local_dir.
  rewrite Hset, Hset0, Hset1, Hset2, Hset3, Hset4. run_script.
  rewrite Hload. cbn [trace heap]. rewrite Hsplit. cbn [trace heap].
  destruct (IngestScript.build_index svc nodes) as [[]|e] eqn:Hbuild;
    (eexists _, _, nodes; split; [reflexivity|]; cbn [trace];
     split; [|split; [reflexivity|split; [reflexivity|]]]).
  - repeat rewrite pipeline_steps_app. cbn. by rewrite !app_nil_r, <- !app_assoc.
  - intros _. split; [reflexivity|]. apply last_snoc.
  - repeat rewrite pipeline_steps_app. cbn. by rewrite !app_nil_r, <- !app_assoc.
  - intros [=].
Qed.

Lemma ingest_pipeline_order_witness :
  exists w',
    IngestScript.main Demo.env Demo.ingest_svc Demo.w0 = (Ok tt, w') /\
    pipeline_steps (trace w') =
      [ LoadData "./data";
        GetNodesFromDocuments 1000 100 ["Client manual, 40 pages"];
        BuildIndex ["Client manual, 40 pages #1"; "Client manual, 40 pages #2"]
                   (Some "client-manual-index") (Some "text-embedding-3-large") ].
Proof.
  destruct (ingest_pipeline_order Demo.env Demo.ingest_svc Demo.w0
              ["Client manual, 40 pages"]
              ["Client manual, 40 pages #1"; "Client manual, 40 pages #2"])
    as (r & w' & pushed & Hrun & Hsteps & -> & _ & Hok).
  - unfold configured. repeat constructor.
  - reflexivity.
  - reflexivity.
  - destruct Hok as [-> _]; [reflexivity|].
    exists w'. split; [exact Hrun|exact Hsteps].
Defined.

(** ** Failure paths *)

(** The last record of a trace that ends in known records. *)
Ltac solve_last :=
  repeat first [rewrite last_app | rewrite last_cons]; reflexivity.

Lemma completion_raises_outcome cfg svc prompt e :
  completion_raises cfg svc prompt e <-> completion_outcome cfg svc prompt = Raise e.
Proof.
  unfold completion_outcome. split.
  - by intros [H | H ->]; rewrite H.
  - destruct (Query.chat_completions_create svc _) as [[|a choices]|e0] eqn:Hc; simpl.
    + intros [= <-]. by apply no_choices.
    + done.
    + intros [= <-]. by apply chat_raises.
Qed.




(** ** Logger set-up *)

Section SetupLoggerFacts.
Import LoggerConfig.
Variable open_log_file : string -> result string.
Variable stdout_encoding : option string.

Lemma getLogger_put_logger name lg st :
  getLogger name (put_logger name lg st) = lg.
Proof. unfold getLogger, put_logger; simpl. by rewrite lookup_insert_eq. Qed.

Lemma getLogger_put_logger_ne name other lg st :
  logger_key other <> logger_key name ->
  getLogger other (put_logger name lg st) = getLogger other st.
Proof.
  intros Hne. unfold getLogger, put_logger; simpl. by rewrite lookup_insert_ne.
Qed.

(** A call on a logger that has handlers: the level and the propagate
    flag are written, the handlers are kept, and no file is opened,
    whatever the file system [opn] would answer. *)
Lemma setup_logger_attached (opn : string -> result string) name log_file level st h hs :
  handlers (getLogger name st) = h :: hs ->
  setup_logger opn stdout_encoding name log_file level st =
    (Ok (logger_key name), put_logger name (Logger level false (h :: hs)) st).
Proof.
  intros Hh. unfold setup_logger, set_propagate, setLevel. cbn [handlers level_of propagate].
  by rewrite Hh.
Qed.

(** A call on a logger without handlers, the file being opened. *)
Lemma setup_logger_fresh name log_file level st baseFilename :
  handlers (getLogger name st) = [] ->
  open_log_file log_file = Ok baseFilename ->
  setup_logger open_log_file stdout_encoding name log_file level st =
    (Ok (logger_key name),
     captureWarnings true
       (put_logger name
          (Logger level false [file_handler baseFilename level;
                               console_handler stdout_encoding level]) st)).
Proof.
  intros Hh Hopen. unfold setup_logger, set_propagate, setLevel, addHandler.
  cbn [handlers level_of propagate]. by rewrite Hh, Hopen.
Qed.

(** A call on a logger without handlers, the file not being opened. *)
Lemma setup_logger_unopened name log_file level st e :
  handlers (getLogger name st) = [] ->
  open_log_file log_file = Raise e ->
  setup_logger open_log_file stdout_encoding name log_file level st =
    (Raise e, put_logger name (Logger level false []) st).
Proof.
  intros Hh Hopen. unfold setup_logger, set_propagate, setLevel.
  cbn [handlers level_of propagate]. by rewrite Hh, Hopen.
Qed.

Lemma getLogger_captureWarnings name b st :
  getLogger name (captureWarnings b st) = getLogger name st.
Proof. reflexivity. Qed.

(** C10, as the code has it.  [setup_logger] attaches handlers at most
    once per logger.  Every call sets the logger's level to the [level]
    argument and its propagate flag to [False], and touches no other
    logger.  If the logger already has handlers, the call returns it
    with no handler added and the ones there kept, regardless of
    [log_file] and [level]; the logger is left as it was exactly when it
    already had that level and propagate flag.  If it has none and the
    log file can be opened, the call attaches exactly one file handler
    and one console handler, and a later call, whatever its [log_file]
    and [level] and whatever the file system has become, adds no more.
    If the log file cannot be opened, the call raises and attaches
    nothing. *)
Theorem setup_logger_attaches_once name log_file level st :
  let r := setup_logger open_log_file stdout_encoding name log_file level st in
  let st' := snd r in
  level_of (getLogger name st') = level /\
  propagate (getLogger name st') = false /\
  (forall other,
     logger_key other <> logger_key name -> getLogger other st' = getLogger other st) /\
  (handlers (getLogger name st) <> [] ->
   fst r = Ok (logger_key name) /\
   handlers (getLogger name st') = handlers (getLogger name st) /\
   capture_warnings st' = capture_warnings st /\
   (getLogger name st' = getLogger name st <->
    level_of (getLogger name st) = level /\ propagate (getLogger name st) = false)) /\
  (handlers (getLogger name st) = [] ->
   (forall baseFilename,
      open_log_file log_file = Ok baseFilename ->
      fst r = Ok (logger_key name) /\
      handlers (getLogger name st') =
        [file_handler baseFilename level; console_handler stdout_encoding level] /\
      length (List.filter is_file_handler (handlers (getLogger name st'))) = 1 /\
      length (List.filter is_console_handler (handlers (getLogger name st'))) = 1 /\
      forall open_later log_file' level',
        let r' := setup_logger open_later stdout_encoding name log_file' level' st' in
        fst r' = Ok (logger_key name) /\
        handlers (getLogger name (snd r')) = handlers (getLogger name st')) /\
   (forall e,
      open_log_file log_file = Raise e ->
      fst r = Raise e /\ handlers (getLogger name st') = [])).
Proof.
  intros r st'. subst r st'.
  destruct (handlers (getLogger name st)) as [|h hs] eqn:Hh.
  - destruct (open_log_file log_file) as [baseFilename|e] eqn:Hopen.
    + rewrite (setup_logger_fresh _ _ _ _ _ Hh Hopen). cbn [fst snd].
      rewrite getLogger_captureWarnings, getLogger_put_logger.
      cbn [level_of propagate handlers].
      split; [done|]. split; [done|]. split.
      { intros other Hne. rewrite getLogger_captureWarnings.
        by apply getLogger_put_logger_ne. }
      split; [done|]. intros _. split; [|by intros e [=]].
      intros ? [= <-]. split; [done|]. split; [done|]. split.
      { unfold file_handler, console_handler.
        by destruct (negb (_console_supports_utf8 stdout_encoding)). }
      split.
      { unfold file_handler, console_handler.
        by destruct (negb (_console_supports_utf8 stdout_encoding)). }
      intros open_later log_file' level'. cbv zeta.
      erewrite setup_logger_attached.
      * cbn [fst snd]. by rewrite getLogger_put_logger.
      * by rewrite getLogger_captureWarnings, getLogger_put_logger.
    + rewrite (setup_logger_unopened _ _ _ _ _ Hh Hopen). cbn [fst snd].
      rewrite getLogger_put_logger. cbn [level_of propagate handlers].
      split; [done|]. split; [done|]. split.
      { intros other Hne. by apply getLogger_put_logger_ne. }
      split; [done|]. intros _. split; [by intros ? [=]|].
      by intros ? [= <-].
  - rewrite (setup_logger_attached _ _ _ _ _ _ _ Hh). cbn [fst snd].
    rewrite getLogger_put_logger. cbn [level_of propagate handlers].
    split; [done|]. split; [done|]. split.
    { intros other Hne. by apply getLogger_put_logger_ne. }
    split; [|done]. intros _. split; [done|]. split; [done|]. split; [done|].
    destruct (getLogger name st) as [l p hs'] eqn:Hlg. cbn [handlers level_of propagate] in *.
    subst hs'. split.
    + by intros [= -> ->].
    + by intros [-> ->].
Qed.

End SetupLoggerFacts.

(** C10 as stated fails: on a logger that already has its handlers, a
    second call with another level returns the logger with its level
    changed. *)
Lemma setup_logger_unchanged_counterexample :
  let st1 := snd (LoggerConfig.setup_logger Demo.open_log_file (Some "utf-8")
                    "src.query.query" "chat.log" LoggerConfig.logging_INFO Demo.logging0) in
  let st2 := snd (LoggerConfig.setup_logger Demo.open_log_file (Some "utf-8")
                    "src.query.query" "other.log" 10 st1) in
  LoggerConfig.handlers (LoggerConfig.getLogger "src.query.query" st1) <> [] /\
  LoggerConfig.level_of (LoggerConfig.getLogger "src.query.query" st1) = 20%Z /\
  LoggerConfig.level_of (LoggerConfig.getLogger "src.query.query" st2) = 10%Z /\
  LoggerConfig.getLogger "src.query.query" st2 <> LoggerConfig.getLogger "src.query.query" st1.
Proof.
  cbv zeta. split; [by vm_compute|]. split; [by vm_compute|]. split; [by vm_compute|].
  intros Heq. apply (f_equal LoggerConfig.level_of) in Heq. vm_compute in Heq. discriminate.
Qed.

Lemma setup_logger_attaches_once_witness :
  let st1 := snd (LoggerConfig.setup_logger Demo.open_log_file (Some "utf-8")
                    "src.query.query" "chat.log" LoggerConfig.logging_INFO Demo.logging0) in
  let st2 := snd (LoggerConfig.setup_logger Demo.open_log_file (Some "utf-8")
                    "src.query.query" "other.log" 10 st1) in
  length (LoggerConfig.handlers (LoggerConfig.getLogger "src.query.query" st1)) = 2 /\
  LoggerConfig.handlers (LoggerConfig.getLogger "src.query.query" st2) =
    LoggerConfig.handlers (LoggerConfig.getLogger "src.query.query" st1) /\
  LoggerConfig.handlers
    (LoggerConfig.getLogger "src.query.query"
       (snd (LoggerConfig.setup_logger Demo.open_log_file (Some "utf-8")
               "src.query.query" "" LoggerConfig.logging_INFO Demo.logging0))) = [].
Proof.
  cbv zeta.
  destruct (setup_logger_attaches_once Demo.open_log_file (Some "utf-8") "src.query.query"
              "chat.log" LoggerConfig.logging_INFO Demo.logging0)
    as (_ & _ & _ & _ & Hfirst).
  destruct Hfirst as [Hopened _]; [reflexivity|].
  destruct (Hopened "/app/logs/chat.log") as (_ & Hhandlers & _ & _ & Hlater); [reflexivity|].
  destruct (setup_logger_attaches_once Demo.open_log_file (Some "utf-8") "src.query.query"
              "" LoggerConfig.logging_INFO Demo.logging0)
    as (_ & _ & _ & _ & Hempty).
  destruct Hempty as [_ Hunopened]; [reflexivity|].
  destruct (Hunopened Demo.is_a_directory) as [_ Hnone]; [reflexivity|].
  split; [|split].
  - rewrite Hhandlers. reflexivity.
  - apply Hlater.
  - exact Hnone.
Defined.

(** ** The order of the steps of a chat turn *)

Lemma render_run (msgs : list message) (w : world) :
  Query.render msgs w = (Ok tt, World (trace w ++ rendering msgs) (heap w)).
Proof.
  revert w. induction msgs as [|msg rest IH]; intros w.
  - simpl. rewrite app_nil_r. by destruct w.
  - cbn [Query.render rendering map]. cbv [bind emit]. rewrite IH. cbn [trace heap].
    by rewrite <- app_assoc.
Qed.

Lemma startup_run env w :
  configured env ["AZURE_OPENAI_ENDPOINT"; "AZURE_OPENAI_API_KEY";
                  "AZURE_SEARCH_ENDPOINT"; "AZURE_SEARCH_API_KEY"; "AZURE_SEARCH_INDEX"] ->
  exists tr,
    Query.startup (Query.load_config env) w = (Ok tt, World (trace w ++ tr) (heap w)) /\
    calls tr = firstn 2 (page_header (Query.load_config env)).
Proof.
  intros Hcfg. use_configured Hcfg.
  unfold Query.startup, Query.load_config.
  cbn [Query.AZURE_OPENAI_ENDPOINT Query.AZURE_OPENAI_KEY Query.AZURE_SEARCH_ENDPOINT
       Query.AZURE_SEARCH_API_KEY Query.AZURE_SEARCH_INDEX].
  rewrite Hset, Hset0, Hset1, Hset2, Hset3. run_script.
  eexists. split.
  - repeat rewrite <- app_assoc. cbn [app]. reflexivity.
  - reflexivity.
Qed.

Lemma calls_rendering (msgs : list message) : calls (rendering msgs) = rendering msgs.
Proof.
  induction msgs as [|msg rest IH]; [done|].
  change (rendering (msg :: rest)) with ([ChatMessage
    (if String.eqb (role msg) "user" then "user" else "assistant") (content msg)]
    ++ rendering rest).
  rewrite calls_app, IH. reflexivity.
Qed.

Lemma calls_retrieval_calls cfg svc query top_k :
  calls (retrieval_calls cfg svc query top_k) = retrieval_calls cfg svc query top_k.
Proof.
  unfold retrieval_calls.
  by destruct (Query.embeddings_create svc query _) as [[|v data]|e].
Qed.

Lemma calls_answer_events cfg svc user_query hist l1 l2 m1 m2 :
  calls (Log l1 m1 None :: Log l2 m2 None ::
         retrieval_calls cfg svc user_query 10 ++
         [ retrieval_log cfg svc user_query 10;
           ChatCompletionsCreate
             (Query.completion_request cfg (prompt_for cfg svc user_query hist));
           completion_log cfg svc (prompt_for cfg svc user_query hist) ]) =
    retrieval_calls cfg svc user_query 10 ++
    [ChatCompletionsCreate (Query.completion_request cfg (prompt_for cfg svc user_query hist))].
Proof.
  change (calls (?a :: ?b :: ?l)) with (calls l).
  rewrite calls_app, calls_retrieval_calls. f_equal.
  unfold retrieval_log, completion_log.
  destruct (retrieval_outcome _ _ _ _);
    by destruct (completion_outcome cfg svc (prompt_for cfg svc user_query hist)).
Qed.

(** The run in which the user submits [user_query]. *)
Lemma page_prompt cfg svc h hist user_query w :
  heap w !! h = Some hist ->
  user_query <> "" ->
  exists w',
    Query.page cfg svc (Some h) (Some user_query) w = (Ok (Some h, Query.RerunRequested), w') /\
    calls (trace w') =
      calls (trace w) ++
      [SetPageConfig "Citi" "🏦"; Title "Client Manual Chatbot 🏦"] ++
      rendering hist ++
      retrieval_calls cfg svc user_query 10 ++
      [ChatCompletionsCreate (Query.completion_request cfg (prompt_for cfg svc user_query hist));
       Rerun] /\
    heap w' !! h =
      Some (hist ++ [ Message "user" (Some user_query);
                      Message "assistant"
                        (answer_of cfg svc (prompt_for cfg svc user_query hist)) ]).
Proof.
  intros Hh Hq.
  assert (Htruthy : truthy (Some user_query) = true).
  { simpl. by destruct (String.eqb_spec user_query ""). }
  unfold Query.page. rewrite Htruthy.
  cbv [bind emit ret list_read logger_info]. cbn [trace heap fmt].
  rewrite Hh. cbn [default from_option id]. rewrite render_run. cbn [trace heap].
  erewrite generate_answer_run by exact Hh. cbn [snd trace heap].
  eexists. split; [reflexivity|]. cbn [trace heap]. split.
  - rewrite !calls_app, calls_answer_events, calls_rendering. cbn.
    repeat first [rewrite <- app_assoc | progress cbn [app]]. reflexivity.
  - apply lookup_insert_eq.
Qed.

(** A run without input. *)
Lemma page_idle cfg svc h hist w :
  heap w !! h = Some hist ->
  Query.page cfg svc (Some h) None w =
    (Ok (Some h, Query.Finished),
     World (trace w ++ [SetPageConfig "Citi" "🏦"; Title "Client Manual Chatbot 🏦"] ++ rendering hist)
           (heap w)).
Proof.
  intros Hh. unfold Query.page. cbv [bind emit ret list_read]. cbn [trace heap truthy].
  rewrite Hh. cbn [default from_option id]. rewrite render_run. cbn [trace heap].
  repeat first [rewrite <- app_assoc | progress cbn [app]]. reflexivity.
Qed.

(** C4. Answering a user query goes through its steps in one order:
    the query is embedded; the vector search is issued with the embedding
    returned; the chunks of the hits retrieved, in the order retrieved,
    are joined with newlines into the context of the final message; the
    chat-completion API is called once with the assembled messages; and
    only after that, in the run that [st.rerun()] starts, the answer is
    drawn on the page, as the last bubble after the question. *)
Theorem submit_order env svc h hist user_query w :
  configured env ["AZURE_OPENAI_ENDPOINT"; "AZURE_OPENAI_API_KEY";
                  "AZURE_SEARCH_ENDPOINT"; "AZURE_SEARCH_API_KEY"; "AZURE_SEARCH_INDEX"] ->
  heap w !! h = Some hist ->
  user_query <> "" ->
  let cfg := Query.load_config env in
  let embed := Query.AZURE_OPENAI_EMBED_DEPLOYMENT cfg in
  let request v :=
    {| search_text := "";
       vector_queries := [VectorQuery "vector" v "embedding" 10];
       select := ["content"; "metadata"; "doc_id"] |} in
  exists context_chunks answer req w',
    (forall w0, fst (Query.get_top_chunks cfg svc user_query 10 w0) = Ok context_chunks) /\
    Query.submit env svc (Some h) user_query w = (Ok (Some h), w') /\
    calls (trace w') =
      calls (trace w) ++
      page_header cfg ++ rendering hist ++
      [EmbeddingsCreate user_query embed] ++
      match Query.embeddings_create svc user_query embed with
      | Ok (v :: _) => [Search (request v)]
      | _ => []
      end ++
      [ChatCompletionsCreate req; Rerun] ++
      page_header cfg ++
      rendering hist ++
      [ChatMessage "user" (Some user_query); ChatMessage "assistant" answer] /\
    (forall v data pg,
       Query.embeddings_create svc user_query embed = Ok (v :: data) ->
       Query.search svc (request v) = Ok pg ->
       pager_error pg = None ->
       context_chunks =
         omap (fun r : search_doc =>
                 match r !! "content" with
                 | Some (Some s) =>
                     if String.eqb s "" then None
                     else Some (s +:+ nl +:+ "(Source: " +:+
                                fmt (py_or (default (Some "") (r !! "metadata"))
                                           (default (Some "") (r !! "doc_id"))) +:+ ")")
                 | _ => None
                 end)
              (yielded pg)) /\
    messages req =
      hist ++
      [ Message "system" (Some Query.system_instruction);
        Message "user"
          (Some ("Context:" +:+ nl +:+ String.concat nl context_chunks +:+ nl +:+ nl +:+
                 "Question: " +:+ user_query)) ] /\
    (forall a choices,
       Query.chat_completions_create svc req = Ok (a :: choices) -> answer = a).
Proof.
  intros Hcfg Hh Hq cfg embed request.
  destruct (startup_run env w Hcfg) as (tr1 & Hstart1 & Hcalls1).
  unfold Query.submit, Query.script. fold cfg in Hstart1, Hcalls1 |- *.
  cbv [bind]. rewrite Hstart1.
  destruct (page_prompt cfg svc h hist user_query (World (trace w ++ tr1) (heap w)) Hh Hq)
    as (w1 & Hpage1 & Hcalls_page & Hheap1).
  rewrite Hpage1. cbn [snd fst].
  destruct (startup_run env w1 Hcfg) as (tr2 & Hstart2 & Hcalls2).
  fold cfg in Hstart2, Hcalls2. rewrite Hstart2.
  rewrite (page_idle cfg svc h _ (World (trace w1 ++ tr2) (heap w1)) Hheap1).
  cbv [ret]. cbn [fst].
  exists (retrieved cfg svc user_query 10),
         (answer_of cfg svc (prompt_for cfg svc user_query hist)),
         (Query.completion_request cfg (prompt_for cfg svc user_query hist)).
  eexists. split; [intros w0; apply get_top_chunks_retrieved|].
  split; [reflexivity|]. cbn [trace]. split; [|split; [|split]].
  - rewrite !calls_app, Hcalls2, Hcalls_page. cbn [trace]. rewrite calls_app, Hcalls1.
    rewrite calls_rendering.
    unfold rendering at 2. rewrite map_app. fold (rendering hist).
    unfold retrieval_calls. fold embed. cbn.
    repeat first [rewrite <- app_assoc | progress cbn [app]]. reflexivity.
  - intros v data pg He Hs Hp.
    rewrite (retrieved_hits cfg svc user_query 10 v data pg He Hs), Hp.
    apply omap_ext_eq. intros r. apply chunk_of_spelled.
  - cbn [messages Query.completion_request]. unfold prompt_for.
    unfold Query.user_message_with_context, Query.system_message.
    by rewrite context_text_concat.
  - intros a choices Hchat. unfold answer_of, completion_outcome. by rewrite Hchat.
Qed.

Lemma submit_order_witness :
  exists w' req,
    Query.submit Demo.env Demo.svc (Some 0) "What are the fees?" Demo.w0 = (Ok (Some 0), w') /\
    calls (trace w') =
      page_header Demo.cfg ++ rendering Demo.earlier ++
      [ EmbeddingsCreate "What are the fees?" "text-embedding-3-large";
        Search {| search_text := "";
                  vector_queries := [VectorQuery "vector" [1; 2; 3]%Z "embedding" 10];
                  select := ["content"; "metadata"; "doc_id"] |};
        ChatCompletionsCreate req;
        Rerun ] ++
      page_header Demo.cfg ++ rendering Demo.earlier ++
      [ ChatMessage "user" (Some "What are the fees?");
        ChatMessage "assistant" (Some "See section 4.") ] /\
    messages req =
      Demo.earlier ++
      [ Message "system" (Some Query.system_instruction);
        Message "user"
          (Some ("Context:" +:+ nl +:+
                 "Fees are listed in section 4." +:+ nl +:+ "(Source: manual.pdf p.12)" +:+ nl +:+
                 "Accounts close after 90 days." +:+ nl +:+ "(Source: d2)" +:+ nl +:+ nl +:+
                 "Question: What are the fees?")) ].
Proof.
  destruct (submit_order Demo.env Demo.svc 0 Demo.earlier "What are the fees?" Demo.w0)
    as (chunks & answer & req & w' & _ & Hrun & Hcalls & Hchunks & Hmessages & Hanswer).
  - unfold configured. repeat constructor.
  - reflexivity.
  - discriminate.
  - exists w', req. split; [exact Hrun|]. split.
    + rewrite Hcalls. rewrite (Hanswer (Some "See section 4.") []) by reflexivity.
      reflexivity.
    + rewrite Hmessages.
      rewrite (Hchunks [1; 2; 3]%Z [] (PageItem Demo.hit1
                 (PageItem Demo.hit_empty (PageItem Demo.hit2 PageEnd))))
        by reflexivity.
      vm_compute. reflexivity.
Defined.

(** * Further properties of the code *)

(** ** logger_config.py *)

Section LoggerFacts.
Import LoggerConfig.

Lemma lower_ascii_idem (c : ascii) : lower_ascii (lower_ascii c) = lower_ascii c.
Proof. destruct c as [[] [] [] [] [] [] [] []]; reflexivity. Qed.

Lemma lower_idem (s : string) : lower (lower s) = lower s.
Proof. induction s as [|c s IH]; simpl; [done|]. by rewrite lower_ascii_idem, IH. Qed.

Lemma lower_app (a b : string) : lower (a +:+ b) = lower a +:+ lower b.
Proof. induction a as [|c a IH]; simpl; [done|]. by rewrite IH. Qed.

Lemma remove_dashes_app (a b : string) :
  remove_dashes (a +:+ b) = remove_dashes a +:+ remove_dashes b.
Proof.
  induction a as [|c a IH]; simpl; [done|].
  destruct (Ascii.eqb c "-"); simpl; by rewrite IH.
Qed.

Lemma encoding_or_empty (s : string) : fmt (py_or (Some s) (Some "")) = s.
Proof.
  unfold py_or. simpl. destruct (String.eqb_spec s "") as [->|]; reflexivity.
Qed.

(** X1. The console check reads the encoding name without regard to
    case or dashes: lowering the name, or putting a dash anywhere in it,
    does not change the answer.  A missing or empty encoding is not
    UTF-8. *)
Theorem console_check_ignores_case_and_dashes (a b : string) :
  _console_supports_utf8 (Some (a +:+ "-" +:+ b)) = _console_supports_utf8 (Some (a +:+ b)) /\
  _console_supports_utf8 (Some (lower a)) = _console_supports_utf8 (Some a) /\
  _console_supports_utf8 None = false /\
  _console_supports_utf8 (Some "") = false.
Proof.
  unfold _console_supports_utf8. rewrite !encoding_or_empty.
  split; [|split; [|split; reflexivity]].
  - by rewrite !lower_app, !remove_dashes_app.
  - by rewrite lower_idem.
Qed.

(** X2. The first call for a logger builds both handlers from its
    arguments, provided the log file can be opened: the file handler
    writes to the file that was opened, both handlers carry the [level]
    argument, the console handler has the filter for non-encodable
    characters exactly when the console is not UTF-8, and warnings are
    captured from then on. *)
Theorem setup_logger_first_call_handlers
    open_log_file stdout_encoding name log_file level st baseFilename :
  handlers (getLogger name st) = [] ->
  open_log_file log_file = Ok baseFilename ->
  let st' := snd (setup_logger open_log_file stdout_encoding name log_file level st) in
  exists fh ch,
    handlers (getLogger name st') = [fh; ch] /\
    handler_filename fh = Some baseFilename /\
    handler_level fh = level /\
    handler_level ch = level /\
    handler_filters ch =
      (if _console_supports_utf8 stdout_encoding then [] else [StripNonEncodableFilter]) /\
    capture_warnings st' = true.
Proof.
  intros Hh Hopen st'. subst st'. rewrite (setup_logger_fresh _ _ _ _ _ _ _ Hh Hopen).
  eexists _, _. cbn [snd]. rewrite getLogger_captureWarnings, getLogger_put_logger.
  cbn [handlers]. split; [reflexivity|]. unfold file_handler, console_handler.
  destruct (_console_supports_utf8 stdout_encoding); repeat split; reflexivity.
Qed.

(** The logger of [name] after a call for [name]. *)
Lemma getLogger_setup_logger open_log_file stdout_encoding name log_file level st :
  getLogger name (snd (setup_logger open_log_file stdout_encoding name log_file level st)) =
    Logger level false
      (match handlers (getLogger name st), open_log_file log_file with
       | [], Ok baseFilename =>
           [file_handler baseFilename level; console_handler stdout_encoding level]
       | [], Raise _ => []
       | hs, _ => hs
       end).
Proof.
  destruct (handlers (getLogger name st)) as [|h hs] eqn:Hh.
  - destruct (open_log_file log_file) as [baseFilename|e] eqn:Hopen.
    + rewrite (setup_logger_fresh _ _ _ _ _ _ _ Hh Hopen). cbn [snd].
      rewrite getLogger_captureWarnings. apply getLogger_put_logger.
    + rewrite (setup_logger_unopened _ _ _ _ _ _ _ Hh Hopen). apply getLogger_put_logger.
  - rewrite (setup_logger_attached _ _ _ _ _ _ _ _ Hh). cbn [snd].
    rewrite getLogger_put_logger. by destruct (open_log_file log_file).
Qed.

(** The state a call leaves, whatever the case: the logger of [name] is
    replaced, and the warning-capture switch is set when handlers were
    attached. *)
Lemma setup_logger_state open_log_file stdout_encoding name log_file level st :
  snd (setup_logger open_log_file stdout_encoding name log_file level st) =
    Logging
      (<[logger_key name :=
           getLogger name
             (snd (setup_logger open_log_file stdout_encoding name log_file level st))]>
         (loggers st))
      (match handlers (getLogger name st), open_log_file log_file with
       | [], Ok _ => true
       | _, _ => capture_warnings st
       end).
Proof.
  rewrite getLogger_setup_logger.
  destruct (handlers (getLogger name st)) as [|h hs] eqn:Hh.
  - destruct (open_log_file log_file) as [baseFilename|e] eqn:Hopen.
    + by rewrite (setup_logger_fresh _ _ _ _ _ _ _ Hh Hopen).
    + by rewrite (setup_logger_unopened _ _ _ _ _ _ _ Hh Hopen).
  - rewrite (setup_logger_attached _ _ _ _ _ _ _ _ Hh). cbn [snd].
    unfold put_logger. by destruct (open_log_file log_file).
Qed.

(** Whether a call returns or raises. *)
Lemma setup_logger_result open_log_file stdout_encoding name log_file level st :
  fst (setup_logger open_log_file stdout_encoding name log_file level st) =
    match handlers (getLogger name st), open_log_file log_file with
    | [], Raise e => Raise e
    | _, _ => Ok (logger_key name)
    end.
Proof.
  destruct (handlers (getLogger name st)) as [|h hs] eqn:Hh.
  - destruct (open_log_file log_file) as [baseFilename|e] eqn:Hopen.
    + by rewrite (setup_logger_fresh _ _ _ _ _ _ _ Hh Hopen).
    + by rewrite (setup_logger_unopened _ _ _ _ _ _ _ Hh Hopen).
  - rewrite (setup_logger_attached _ _ _ _ _ _ _ _ Hh). cbn [fst].
    by destruct (open_log_file log_file).
Qed.

(** The logger of another key after a call for [name]. *)
Lemma getLogger_setup_logger_ne open_log_file stdout_encoding name other log_file level st :
  logger_key other <> logger_key name ->
  getLogger other (snd (setup_logger open_log_file stdout_encoding name log_file level st)) =
    getLogger other st.
Proof.
  intros Hne. rewrite setup_logger_state. unfold getLogger. cbn [loggers].
  by rewrite lookup_insert_ne.
Qed.

(** X3. The level and file of a later call never reach the handlers:
    after a first call with [level1] that opened its file and a second
    with [level2], whatever the file system has become by then, the
    logger is at [level2] while both handlers still filter at [level1]
    and the file handler still writes to the file the first call
    opened. *)
Theorem setup_logger_handlers_keep_first_level
    open_log_file open_later stdout_encoding name file1 level1 file2 level2 st baseFilename :
  handlers (getLogger name st) = [] ->
  open_log_file file1 = Ok baseFilename ->
  let st2 := snd (setup_logger open_later stdout_encoding name file2 level2
               (snd (setup_logger open_log_file stdout_encoding name file1 level1 st))) in
  level_of (getLogger name st2) = level2 /\
  map handler_level (handlers (getLogger name st2)) = [level1; level1] /\
  map handler_filename (handlers (getLogger name st2)) = [Some baseFilename; None].
Proof.
  intros Hh Hopen st2. subst st2.
  rewrite !getLogger_setup_logger, Hh, Hopen. cbn [handlers level_of].
  split; [reflexivity|]. unfold file_handler, console_handler.
  destruct (_console_supports_utf8 stdout_encoding); split; reflexivity.
Qed.

(** X4. Calls for different loggers do not interfere.  [open_log_file]
    is the file system before either call, [open_after1] and
    [open_after2] the file system after the call for [name1] and after
    the call for [name2].  When the two names denote different loggers,
    and opening each log file answers the same whether or not the other
    call came first, the calls made in either order leave the same
    loggers, handlers, levels and warning-capture switch, and each call
    returns or raises the same in both orders.  The names [""] and
    ["root"] denote the same logger and are not covered. *)
Theorem setup_logger_names_commute
    open_log_file open_after1 open_after2 stdout_encoding
    name1 file1 level1 name2 file2 level2 st :
  logger_key name1 <> logger_key name2 ->
  open_after1 file2 = open_log_file file2 ->
  open_after2 file1 = open_log_file file1 ->
  let first1 := setup_logger open_log_file stdout_encoding name1 file1 level1 st in
  let first2 := setup_logger open_log_file stdout_encoding name2 file2 level2 st in
  let then2 := setup_logger open_after1 stdout_encoding name2 file2 level2 (snd first1) in
  let then1 := setup_logger open_after2 stdout_encoding name1 file1 level1 (snd first2) in
  snd then2 = snd then1 /\ fst then2 = fst first2 /\ fst then1 = fst first1.
Proof.
  intros Hne Ho1 Ho2 first1 first2 then2 then1. subst first1 first2 then2 then1.
  assert (Hne' : logger_key name2 <> logger_key name1) by (by intros Heq; apply Hne).
  assert (H12 : getLogger name1
                  (snd (setup_logger open_log_file stdout_encoding name2 file2 level2 st)) =
                getLogger name1 st) by (by apply getLogger_setup_logger_ne).
  assert (H21 : getLogger name2
                  (snd (setup_logger open_log_file stdout_encoding name1 file1 level1 st)) =
                getLogger name2 st) by (by apply getLogger_setup_logger_ne).
  split; [|split].
  - rewrite (setup_logger_state open_after1 stdout_encoding name2 file2 level2
               (snd (setup_logger open_log_file stdout_encoding name1 file1 level1 st))).
    rewrite (setup_logger_state open_after2 stdout_encoding name1 file1 level1
               (snd (setup_logger open_log_file stdout_encoding name2 file2 level2 st))).
    rewrite !getLogger_setup_logger, H12, H21, Ho1, Ho2.
    rewrite (setup_logger_state open_log_file stdout_encoding name1 file1 level1 st).
    rewrite (setup_logger_state open_log_file stdout_encoding name2 file2 level2 st).
    rewrite !getLogger_setup_logger. cbn [loggers capture_warnings].
    f_equal.
    + by apply insert_insert_ne.
    + destruct (handlers (getLogger name1 st)), (open_log_file file1),
        (handlers (getLogger name2 st)), (open_log_file file2); reflexivity.
  - by rewrite !setup_logger_result, H21, Ho1.
  - by rewrite !setup_logger_result, H12, Ho2.
Qed.

Lemma getLogger_key_eq name1 name2 st :
  logger_key name1 = logger_key name2 -> getLogger name1 st = getLogger name2 st.
Proof. intros Heq. unfold getLogger. by rewrite Heq. Qed.

Lemma getLogger_quiet name st :
  getLogger name (quiet name st) = setLevel logging_WARNING (getLogger name st).
Proof. unfold quiet. apply getLogger_put_logger. Qed.

Lemma loggers_quiet_ne name other st :
  other <> logger_key name -> loggers (quiet name st) !! other = loggers st !! other.
Proof. intros Hne. unfold quiet, put_logger. cbn [loggers]. by apply lookup_insert_ne. Qed.

Lemma getLogger_quiet_ne name other st :
  logger_key other <> logger_key name -> getLogger other (quiet name st) = getLogger other st.
Proof. intros Hne. unfold getLogger. by rewrite loggers_quiet_ne. Qed.

Lemma quiet_quiet name st : quiet name (quiet name st) = quiet name st.
Proof.
  unfold quiet at 1. rewrite getLogger_quiet. unfold quiet, put_logger, setLevel.
  cbn [loggers capture_warnings level_of propagate handlers]. f_equal.
  apply insert_insert_eq.
Qed.

Lemma quiet_commute name1 name2 st :
  logger_key name1 <> logger_key name2 ->
  quiet name1 (quiet name2 st) = quiet name2 (quiet name1 st).
Proof.
  intros Hne. unfold quiet at 1 3.
  rewrite !getLogger_quiet_ne by done.
  unfold quiet, put_logger. cbn [loggers capture_warnings]. f_equal.
  by apply insert_insert_ne.
Qed.

(** X5. Loading the module quiets the two Azure SDK loggers and nothing
    else: both are set to [WARNING], no logger gains or loses a handler
    or changes its propagate flag, every other logger and the
    warning-capture switch are as before, and loading it again changes
    nothing. *)
Theorem module_init_quiets_azure st :
  let st' := module_init st in
  level_of (getLogger "azure" st') = logging_WARNING /\
  level_of (getLogger "azure.core.pipeline.policies.http_logging_policy" st')
    = logging_WARNING /\
  (forall name,
     handlers (getLogger name st') = handlers (getLogger name st) /\
     propagate (getLogger name st') = propagate (getLogger name st)) /\
  (forall name,
     name <> "azure" ->
     name <> "azure.core.pipeline.policies.http_logging_policy" ->
     loggers st' !! name = loggers st !! name) /\
  capture_warnings st' = capture_warnings st /\
  module_init st' = st'.
Proof.
  intros st'. subst st'. unfold module_init.
  split; [|split; [|split; [|split; [|split]]]].
  - rewrite getLogger_quiet_ne by done. by rewrite getLogger_quiet.
  - by rewrite getLogger_quiet.
  - intros name.
    destruct (decide (logger_key name =
                      logger_key "azure.core.pipeline.policies.http_logging_policy"))
      as [Heq|Hn1].
    { rewrite !(getLogger_key_eq name _ _ Heq).
      rewrite getLogger_quiet. rewrite getLogger_quiet_ne by done. done. }
    rewrite getLogger_quiet_ne by done.
    destruct (decide (logger_key name = logger_key "azure")) as [Heq|Hn2].
    { rewrite !(getLogger_key_eq name _ _ Heq). by rewrite getLogger_quiet. }
    by rewrite getLogger_quiet_ne.
  - intros name Hn2 Hn1. by rewrite !loggers_quiet_ne.
  - reflexivity.
  - rewrite (quiet_commute "azure"
               "azure.core.pipeline.policies.http_logging_policy") by done.
    by rewrite !quiet_quiet.
Qed.

End LoggerFacts.

Lemma setup_logger_first_call_handlers_witness :
  exists fh ch,
    LoggerConfig.handlers
      (LoggerConfig.getLogger "src.query.query"
         (snd (LoggerConfig.setup_logger Demo.open_log_file (Some "cp1252") "src.query.query"
                 "chat.log" LoggerConfig.logging_INFO Demo.logging0))) = [fh; ch] /\
    LoggerConfig.handler_filename fh = Some "/app/logs/chat.log" /\
    LoggerConfig.handler_filters ch = [LoggerConfig.StripNonEncodableFilter].
Proof.
  destruct (setup_logger_first_call_handlers Demo.open_log_file (Some "cp1252")
              "src.query.query" "chat.log" LoggerConfig.logging_INFO Demo.logging0
              "/app/logs/chat.log")
    as (fh & ch & Hhs & Hfile & _ & _ & Hfilters & _); [reflexivity|reflexivity|].
  exists fh, ch. split; [exact Hhs|]. split; [exact Hfile|exact Hfilters].
Defined.

Lemma setup_logger_handlers_keep_first_level_witness :
  let st2 := snd (LoggerConfig.setup_logger Demo.open_log_file (Some "utf-8")
                    "src.query.query" "debug.log" 10
                    (snd (LoggerConfig.setup_logger Demo.open_log_file (Some "utf-8")
                            "src.query.query" "chat.log" LoggerConfig.logging_INFO
                            Demo.logging0))) in
  LoggerConfig.level_of (LoggerConfig.getLogger "src.query.query" st2) = 10%Z /\
  map LoggerConfig.handler_level
      (LoggerConfig.handlers (LoggerConfig.getLogger "src.query.query" st2)) = [20; 20]%Z.
Proof.
  destruct (setup_logger_handlers_keep_first_level Demo.open_log_file Demo.open_log_file
              (Some "utf-8") "src.query.query" "chat.log" LoggerConfig.logging_INFO
              "debug.log" 10 Demo.logging0 "/app/logs/chat.log")
    as (Hlevel & Hlevels & _); [reflexivity|reflexivity|].
  split; [exact Hlevel|exact Hlevels].
Defined.

Lemma setup_logger_names_commute_witness :
  snd (LoggerConfig.setup_logger Demo.open_log_file None "src.ingesting.ingest" "ingest.log" 20
         (snd (LoggerConfig.setup_logger Demo.open_log_file None "src.query.query" "chat.log" 20
                 Demo.logging0))) =
  snd (LoggerConfig.setup_logger Demo.open_log_file None "src.query.query" "chat.log" 20
         (snd (LoggerConfig.setup_logger Demo.open_log_file None "src.ingesting.ingest"
                 "ingest.log" 20 Demo.logging0))).
Proof.
  apply (setup_logger_names_commute Demo.open_log_file Demo.open_log_file Demo.open_log_file
           None "src.query.query" "chat.log" 20 "src.ingesting.ingest" "ingest.log" 20
           Demo.logging0); [discriminate|reflexivity|reflexivity].
Defined.

(** ** create_index.py *)

Lemma existsb_eqb_elem_of (name : string) (names : list string) :
  existsb (String.eqb name) names = true <-> name ∈ names.
Proof.
  rewrite existsb_exists, list_elem_of_In. split.
  - intros (x & Hin & Heq%String.eqb_eq). by subst.
  - intros Hin. exists name. split; [done|apply String.eqb_refl].
Qed.

Lemma existsb_eqb_not_elem_of (name : string) (names : list string) :
  existsb (String.eqb name) names = false <-> name ∉ names.
Proof.
  rewrite <- existsb_eqb_elem_of. by destruct (existsb _ names).
Qed.

(** Compares the service calls of a trace that was computed step by
    step with the list expected. *)
Ltac solve_calls :=
  repeat rewrite calls_app; cbn;
  repeat first [rewrite app_nil_r | rewrite <- app_assoc | progress cbn [app]];
  reflexivity.

Ltac run_create_index Hcfg Hclient :=
  use_configured Hcfg;
  unfold CreateIndexScript.main;
  match goal with
  | H1 : truthy (getenv _ "AZURE_SEARCH_ENDPOINT") = true,
    H2 : truthy (getenv _ "AZURE_SEARCH_API_KEY") = true |- _ => rewrite H1, H2
  end;
  run_script;
  rewrite Hclient; cbn [trace heap].

(** X6. When the client is constructed and the named index is already
    listed, the script deletes it and then creates the new one; when it
    is not listed, it creates the index without deleting anything.
    Nothing else is asked of the service. *)
Theorem create_index_replaces_existing env svc w names :
  configured env ["AZURE_SEARCH_ENDPOINT"; "AZURE_SEARCH_API_KEY"] ->
  let name := getenv_default env "AZURE_SEARCH_INDEX" "client-manual-index" in
  let client := NewClient "SearchIndexClient"
                  [("endpoint", getenv env "AZURE_SEARCH_ENDPOINT");
                   ("credential", getenv env "AZURE_SEARCH_API_KEY")] in
  CreateIndexScript.search_index_client svc
    (getenv env "AZURE_SEARCH_ENDPOINT") (getenv env "AZURE_SEARCH_API_KEY") = Ok tt ->
  CreateIndexScript.list_index_names svc = Ok names ->
  CreateIndexScript.create_index svc (CreateIndexScript.index name) = Ok tt ->
  (name ∈ names ->
   CreateIndexScript.delete_index svc name = Ok tt ->
   exists w',
     CreateIndexScript.main env svc w = (Ok tt, w') /\
     calls (trace w') =
       calls (trace w) ++
       [client; ListIndexNames; DeleteIndex name;
        CreateIndex (CreateIndexScript.index name)]) /\
  (name ∉ names ->
   exists w',
     CreateIndexScript.main env svc w = (Ok tt, w') /\
     calls (trace w') =
       calls (trace w) ++
       [client; ListIndexNames; CreateIndex (CreateIndexScript.index name)]).
Proof.
  intros Hcfg name client Hclient Hlist Hcreate. subst name client. split.
  - intros Hin%existsb_eqb_elem_of Hdelete. run_create_index Hcfg Hclient.
    rewrite Hlist. cbn [trace heap]. rewrite Hin. cbn [trace heap].
    rewrite Hdelete. cbn [trace heap]. rewrite Hcreate. cbn [trace heap].
    eexists. split; [reflexivity|]. cbn [trace]. solve_calls.
  - intros Hin%existsb_eqb_not_elem_of. run_create_index Hcfg Hclient.
    rewrite Hlist. cbn [trace heap]. rewrite Hin. cbn [trace heap].
    rewrite Hcreate. cbn [trace heap].
    eexists. split; [reflexivity|]. cbn [trace]. solve_calls.
Qed.

Lemma create_index_replaces_existing_witness :
  exists w',
    CreateIndexScript.main Demo.env Demo.index_svc Demo.w0 = (Ok tt, w') /\
    calls (trace w') =
      [ NewClient "SearchIndexClient"
          [("endpoint", Some "https://search.example"); ("credential", Some "k2")];
        ListIndexNames;
        DeleteIndex "client-manual-index";
        CreateIndex (CreateIndexScript.index "client-manual-index") ].
Proof.
  destruct (create_index_replaces_existing Demo.env Demo.index_svc Demo.w0
              ["client-manual-index"]) as [Hexisting _].
  - unfold configured. repeat constructor.
  - reflexivity.
  - reflexivity.
  - reflexivity.
  - destruct Hexisting as (w' & Hrun & Hcalls).
    + apply list_elem_of_In. left. reflexivity.
    + reflexivity.
    + exists w'. split; [exact Hrun|exact Hcalls].
Defined.

(** X7. Replacing an index is not atomic.  With the client constructed,
    if deleting the old index fails, the script re-raises without trying
    to create the new one; if the deletion succeeds and the creation
    fails, the script re-raises after the old index has been deleted, and
    issues no further call. *)
Theorem create_index_not_atomic env svc w names e :
  configured env ["AZURE_SEARCH_ENDPOINT"; "AZURE_SEARCH_API_KEY"] ->
  let name := getenv_default env "AZURE_SEARCH_INDEX" "client-manual-index" in
  let client := NewClient "SearchIndexClient"
                  [("endpoint", getenv env "AZURE_SEARCH_ENDPOINT");
                   ("credential", getenv env "AZURE_SEARCH_API_KEY")] in
  CreateIndexScript.search_index_client svc
    (getenv env "AZURE_SEARCH_ENDPOINT") (getenv env "AZURE_SEARCH_API_KEY") = Ok tt ->
  CreateIndexScript.list_index_names svc = Ok names ->
  name ∈ names ->
  (CreateIndexScript.delete_index svc name = Raise e ->
   exists w',
     CreateIndexScript.main env svc w = (Raise e, w') /\
     calls (trace w') = calls (trace w) ++ [client; ListIndexNames; DeleteIndex name]) /\
  (CreateIndexScript.delete_index svc name = Ok tt ->
   CreateIndexScript.create_index svc (CreateIndexScript.index name) = Raise e ->
   exists w',
     CreateIndexScript.main env svc w = (Raise e, w') /\
     calls (trace w') =
       calls (trace w) ++
       [client; ListIndexNames; DeleteIndex name;
        CreateIndex (CreateIndexScript.index name)]).
Proof.
  intros Hcfg name client Hclient Hlist Hin%existsb_eqb_elem_of. subst name client. split.
  - intros Hdelete. run_create_index Hcfg Hclient.
    rewrite Hlist. cbn [trace heap]. rewrite Hin. cbn [trace heap]. rewrite Hdelete.
    eexists. split; [reflexivity|]. cbn [trace]. solve_calls.
  - intros Hdelete Hcreate. run_create_index Hcfg Hclient.
    rewrite Hlist. cbn [trace heap]. rewrite Hin. cbn [trace heap].
    rewrite Hdelete. cbn [trace heap]. rewrite Hcreate.
    eexists. split; [reflexivity|]. cbn [trace]. solve_calls.
Qed.

Lemma create_index_not_atomic_witness :
  exists w',
    CreateIndexScript.main Demo.env Demo.index_svc_forbidden Demo.w0
      = (Raise Demo.forbidden, w') /\
    calls (trace w') =
      [ NewClient "SearchIndexClient"
          [("endpoint", Some "https://search.example"); ("credential", Some "k2")];
        ListIndexNames;
        DeleteIndex "client-manual-index";
        CreateIndex (CreateIndexScript.index "client-manual-index") ].
Proof.
  destruct (create_index_not_atomic Demo.env Demo.index_svc_forbidden Demo.w0
              ["client-manual-index"] Demo.forbidden) as [_ Hcreate].
  - unfold configured. repeat constructor.
  - reflexivity.
  - reflexivity.
  - apply list_elem_of_In. left. reflexivity.
  - destruct Hcreate as (w' & Hrun & Hcalls); [reflexivity|reflexivity|].
    exists w'. split; [exact Hrun|exact Hcalls].
Defined.

(** An exception thrown inside the [try] block leaves the script right
    after the [logger.exception] record. *)
Lemma create_index_try_raises env svc w e :
  configured env ["AZURE_SEARCH_ENDPOINT"; "AZURE_SEARCH_API_KEY"] ->
  CreateIndexScript.search_index_client svc
    (getenv env "AZURE_SEARCH_ENDPOINT") (getenv env "AZURE_SEARCH_API_KEY") = Ok tt ->
  index_creation_raises svc (getenv_default env "AZURE_SEARCH_INDEX" "client-manual-index") e ->
  exists tr,
    CreateIndexScript.main env svc w =
      (Raise e,
       World (tr ++ [Log ERROR (" Failed to create/update index: " +:+ exn_str e) (Some e)])
             (heap w)).
Proof.
  intros Hcfg Hclient Hraise. run_create_index Hcfg Hclient.
  destruct Hraise as [Hl | names Hl Hin Hd | names Hl Hd Hc]; rewrite Hl; cbn [trace heap].
  - eexists. reflexivity.
  - rewrite Hin. cbn [trace heap]. rewrite Hd. eexists. reflexivity.
  - destruct (existsb _ names) eqn:Hin; cbn [trace heap].
    + rewrite (Hd eq_refl). cbn [trace heap]. rewrite Hc. eexists. reflexivity.
    + rewrite Hc. eexists. reflexivity.
Qed.

(** X8. Run as a script, [create_index.py] reports a failure of its
    [try] block twice.  For an exception of a class that derives from
    [Exception] and not from [KeyboardInterrupt], the [except] clause
    logs it at ERROR and re-raises it, and the hook installed by
    [install_global_exception_hook] then logs the same exception at
    CRITICAL, after which the process ends with status 1.  The hook
    itself, given an exception whose class derives from
    [KeyboardInterrupt], logs nothing and leaves it to the default
    hook. *)
Theorem create_index_failure_logged_twice mro env svc w e :
  configured env ["AZURE_SEARCH_ENDPOINT"; "AZURE_SEARCH_API_KEY"] ->
  CreateIndexScript.search_index_client svc
    (getenv env "AZURE_SEARCH_ENDPOINT") (getenv env "AZURE_SEARCH_API_KEY") = Ok tt ->
  index_creation_raises svc (getenv_default env "AZURE_SEARCH_INDEX" "client-manual-index") e ->
  LoggerConfig.issubclass (mro e) "Exception" = true ->
  LoggerConfig.issubclass (mro e) "KeyboardInterrupt" = false ->
  (exists tr w',
     run_as_script mro (CreateIndexScript.main env svc) w
       = (1%Z, Some LoggerConfig.LoggedCritical, w') /\
     trace w' =
       tr ++ [ Log ERROR (" Failed to create/update index: " +:+ exn_str e) (Some e);
               Log CRITICAL "Uncaught exception" (Some e) ]) /\
  (forall exc_type exc_value w0,
     LoggerConfig.issubclass exc_type "KeyboardInterrupt" = true ->
     LoggerConfig._handle exc_type exc_value w0 = (Ok LoggerConfig.DefaultExcepthook, w0)).
Proof.
  intros Hcfg Hclient Hraise _ Hmro.
  destruct (create_index_try_raises env svc w e Hcfg Hclient Hraise) as (tr & Hrun).
  split.
  - unfold run_as_script, LoggerConfig._handle. rewrite Hrun, Hmro.
    cbv [bind emit ret]. cbn [trace heap]. eexists tr, _. split; [reflexivity|].
    cbn [trace]. by rewrite <- app_assoc.
  - intros exc_type exc_value w0 Hki. unfold LoggerConfig._handle. by rewrite Hki.
Qed.

Lemma create_index_failure_logged_twice_witness :
  exists tr w',
    run_as_script
      (fun e => [exn_class e; "AzureError"; "Exception"; "BaseException"; "object"])
      (CreateIndexScript.main Demo.env Demo.index_svc_forbidden) Demo.w0
      = (1%Z, Some LoggerConfig.LoggedCritical, w') /\
    trace w' =
      tr ++
      [ Log ERROR (" Failed to create/update index: " +:+ exn_str Demo.forbidden)
            (Some Demo.forbidden);
        Log CRITICAL "Uncaught exception" (Some Demo.forbidden) ].
Proof.
  destruct (create_index_failure_logged_twice
              (fun e => [exn_class e; "AzureError"; "Exception"; "BaseException"; "object"])
              Demo.env Demo.index_svc_forbidden Demo.w0 Demo.forbidden)
    as [Hlogged _].
  - unfold configured. repeat constructor.
  - reflexivity.
  - apply (creating_raises _ _ _ ["client-manual-index"]); reflexivity.
  - reflexivity.
  - reflexivity.
  - exact Hlogged.
Defined.

(** X9. [create_index.py] accepts what the other two modules refuse.
    With [AZURE_SEARCH_INDEX] unset it works on the index
    [client-manual-index], and with the variable set to the empty string
    it works on an index with the empty name, the default not being
    used: once the client is constructed, that is the index it asks the
    service to create.  [ingest.py] and [query.py] raise [ValueError] in
    both cases. *)
Theorem index_name_default_only_in_create_index env w :
  configured env ["AZURE_SEARCH_ENDPOINT"; "AZURE_SEARCH_API_KEY"] ->
  unset_or_empty env "AZURE_SEARCH_INDEX" ->
  let name := match env !! "AZURE_SEARCH_INDEX" with
              | None => "client-manual-index"
              | Some _ => ""
              end in
  (forall svc,
     CreateIndexScript.search_index_client svc
       (getenv env "AZURE_SEARCH_ENDPOINT") (getenv env "AZURE_SEARCH_API_KEY") = Ok tt ->
     CreateIndexScript.list_index_names svc = Ok [] ->
     CreateIndexScript.create_index svc (CreateIndexScript.index name) = Ok tt ->
     exists w',
       CreateIndexScript.main env svc w = (Ok tt, w') /\
       last (calls (trace w')) = Some (CreateIndex (CreateIndexScript.index name))) /\
  (forall svc, exists msg w', IngestScript.main env svc w = (Raise (ValueError msg), w')) /\
  (forall svc session prompt,
     exists msg w', Query.script env svc session prompt w = (Raise (ValueError msg), w')).
Proof.
  intros Hcfg Hindex name.
  assert (Hname : getenv_default env "AZURE_SEARCH_INDEX" "client-manual-index" = name).
  { unfold getenv_default. subst name. by destruct Hindex as [-> | ->]. }
  apply unset_or_empty_falsy in Hindex.
  split; [|split].
  - intros svc Hclient Hlist Hcreate. run_create_index Hcfg Hclient. rewrite Hname.
    rewrite Hlist. cbn [trace heap existsb]. rewrite Hcreate. cbn [trace heap].
    eexists. split; [reflexivity|]. cbn [trace].
    repeat rewrite calls_app. cbn. rewrite !app_nil_r. apply last_snoc.
  - intros svc. use_configured Hcfg. unfold IngestScript.main.
    rewrite Hset, Hset0, Hindex. run_script. eexists _, _. reflexivity.
  - intros svc session prompt. use_configured Hcfg.
    unfold Query.script, Query.startup, Query.load_config.
    cbn [Query.AZURE_OPENAI_ENDPOINT Query.AZURE_OPENAI_KEY Query.AZURE_SEARCH_ENDPOINT
         Query.AZURE_SEARCH_API_KEY Query.AZURE_SEARCH_INDEX].
    rewrite Hset, Hset0, Hindex.
    destruct (truthy (getenv env "AZURE_OPENAI_ENDPOINT"));
      destruct (truthy (getenv env "AZURE_OPENAI_API_KEY"));
      run_script; eexists _, _; reflexivity.
Qed.

Lemma index_name_default_only_in_create_index_witness :
  let env := delete "AZURE_SEARCH_INDEX" Demo.env in
  let svc := {| CreateIndexScript.search_index_client := fun _ _ => Ok tt;
                CreateIndexScript.list_index_names := Ok [];
                CreateIndexScript.delete_index := fun _ => Ok tt;
                CreateIndexScript.create_index := fun _ => Ok tt |} in
  (exists w',
     CreateIndexScript.main env svc Demo.w0 = (Ok tt, w') /\
     last (calls (trace w')) =
       Some (CreateIndex (CreateIndexScript.index "client-manual-index"))) /\
  (exists msg w', IngestScript.main env Demo.ingest_svc Demo.w0 = (Raise (ValueError msg), w')).
Proof.
  intros env svc.
  destruct (index_name_default_only_in_create_index env Demo.w0)
    as (Hcreate & Hingest & _).
  - unfold configured. repeat constructor.
  - left. reflexivity.
  - split.
    + apply (Hcreate svc); reflexivity.
    + apply Hingest.
Defined.



(** ** The index schema and its users *)

(** X10. The three modules agree on the fields of the index.  Whatever
    its name, the index has the fields [doc_id], [content], [embedding]
    and [metadata], with [doc_id] as its only key and [embedding] as its
    only vector field, bound to a profile and an algorithm the index
    declares.  The query searches the vector field and selects only
    fields of the index, and [chunk_of] reads nothing but the selected
    fields: hits that agree on them give the same chunk. *)
Theorem index_schema_agrees_with_query name v top_k :
  let idx := CreateIndexScript.index name in
  let req := Query.vector_search_request v top_k in
  map field_name (index_fields idx) = ["doc_id"; "content"; "embedding"; "metadata"] /\
  map field_name (List.filter field_key (index_fields idx)) = ["doc_id"] /\
  (exists f algorithm,
     List.filter (fun f => bool_decide (is_Some (field_dimensions f))) (index_fields idx) = [f] /\
     map vq_fields (vector_queries req) = [field_name f] /\
     field_profile f = Some "my-vector-config" /\
     ("my-vector-config", algorithm) ∈ index_profiles idx /\
     algorithm ∈ index_algorithms idx) /\
  (forall field, field ∈ select req -> field ∈ map field_name (index_fields idx)) /\
  (forall r r' : search_doc,
     (forall field, field ∈ select req -> r !! field = r' !! field) ->
     Query.chunk_of r = Query.chunk_of r').
Proof.
  intros idx req. subst idx req. cbn.
  split; [reflexivity|]. split; [reflexivity|]. split; [|split].
  - eexists _, "my-hnsw". split; [reflexivity|]. cbn. repeat split; set_solver.
  - intros field Hin%list_elem_of_In. apply list_elem_of_In. simpl in *. tauto.
  - intros r r' Hagree. unfold Query.chunk_of, Query.get.
    rewrite <- (Hagree "content"), <- (Hagree "metadata"), <- (Hagree "doc_id");
      [reflexivity| | |]; apply list_elem_of_In; simpl; tauto.
Qed.

(** ** ingest.py *)

Ltac run_ingest Hcfg :=
  use_configured Hcfg;
  unfold IngestScript.main, IngestScript.local_dir;
  match goal with
  | H1 : truthy (getenv _ "AZURE_SEARCH_ENDPOINT") = true,
    H2 : truthy (getenv _ "AZURE_SEARCH_API_KEY") = true,
    H3 : truthy (getenv _ "AZURE_SEARCH_INDEX") = true,
    H4 : truthy (getenv _ "AZURE_OPENAI_ENDPOINT") = true,
    H5 : truthy (getenv _ "AZURE_OPENAI_API_KEY") = true,
    H6 : truthy (getenv _ "AZURE_OPENAI_EMBED_DEPLOYMENT") = true |- _ =>
      rewrite H1, H2, H3, H4, H5, H6
  end;
  run_script.

(** X11. When the documents cannot be loaded, the ingestion script stops
    there: it re-raises after the one call to the reader, having
    constructed no client and asked for no split and no upload. *)
Theorem ingest_stops_when_loading_fails env svc w e :
  configured env ["AZURE_SEARCH_ENDPOINT"; "AZURE_SEARCH_API_KEY"; "AZURE_SEARCH_INDEX";
                  "AZURE_OPENAI_ENDPOINT"; "AZURE_OPENAI_API_KEY";
                  "AZURE_OPENAI_EMBED_DEPLOYMENT"] ->
  IngestScript.load_data svc "./data" = Raise e ->
  exists w',
    IngestScript.main env svc w = (Raise e, w') /\
    calls (trace w') = calls (trace w) ++ [LoadData "./data"].
Proof.
  intros Hcfg Hload. run_ingest Hcfg. rewrite Hload.
  eexists. split; [reflexivity|]. cbn [trace]. solve_calls.
Qed.

Lemma ingest_stops_when_loading_fails_witness :
  exists w',
    IngestScript.main Demo.env Demo.ingest_svc_no_folder Demo.w0 = (Raise Demo.no_folder, w') /\
    calls (trace w') = [LoadData "./data"].
Proof.
  destruct (ingest_stops_when_loading_fails Demo.env Demo.ingest_svc_no_folder Demo.w0
              Demo.no_folder) as (w' & Hrun & Hcalls).
  - unfold configured. repeat constructor.
  - reflexivity.
  - exists w'. split; [exact Hrun|exact Hcalls].
Defined.



Lemma store_fields (key field name : string) :
  (key, Some field) ∈
    [("id_field_key", Some "doc_id"); ("chunk_field_key", Some "content");
     ("embedding_field_key", Some "embedding");
     ("metadata_string_field_key", Some "metadata"); ("doc_id_field_key", Some "doc_id")] ->
  field ∈ map field_name (index_fields (CreateIndexScript.index name)).
Proof.
  intros Hin%list_elem_of_In. apply list_elem_of_In. simpl in *.
  repeat destruct Hin as [Hin|Hin]; try (injection Hin as <- <-); tauto.
Qed.

(** X13. [OPENAI_API_VERSION] is read but never checked, and the vector
    store is bound to fields of the index.  Once the six checked
    variables are set and the documents are loaded, the embedding client
    is constructed with whatever the variable holds, [None] when it is
    unset, and every field key given to the vector store names a field of
    the index that [create_index.py] defines. *)
Theorem ingest_clients_constructed env svc w docs :
  configured env ["AZURE_SEARCH_ENDPOINT"; "AZURE_SEARCH_API_KEY"; "AZURE_SEARCH_INDEX";
                  "AZURE_OPENAI_ENDPOINT"; "AZURE_OPENAI_API_KEY";
                  "AZURE_OPENAI_EMBED_DEPLOYMENT"] ->
  IngestScript.load_data svc "./data" = Ok docs ->
  exists embed_kwargs search_kwargs store_kwargs rest,
    calls (trace (snd (IngestScript.main env svc w))) =
      calls (trace w) ++
      [ LoadData "./data";
        NewClient "AzureOpenAIEmbedding" embed_kwargs;
        NewClient "SearchClient" search_kwargs;
        NewClient "AzureAISearchVectorStore" store_kwargs;
        GetNodesFromDocuments 1000 100 docs ] ++ rest /\
    ("api_version", env !! "OPENAI_API_VERSION") ∈ embed_kwargs /\
    (forall key field name,
       (key, Some field) ∈ store_kwargs ->
       field ∈ map field_name (index_fields (CreateIndexScript.index name))).
Proof.
  intros Hcfg Hload. run_ingest Hcfg. rewrite Hload. cbn [trace heap].
  eexists _, _, _.
  destruct (IngestScript.get_nodes_from_documents svc 1000 100 docs) as [nodes|e];
    cbn [trace heap snd].
  - destruct (IngestScript.build_index svc nodes) as [[]|e]; cbn [trace heap snd];
      (eexists; split; [solve_calls|];
       split; [unfold getenv; apply list_elem_of_In; simpl; tauto|]; apply store_fields).
  - exists []. split; [solve_calls|].
    split; [unfold getenv; apply list_elem_of_In; simpl; tauto|]. apply store_fields.
Qed.

Lemma ingest_clients_constructed_witness :
  let env := delete "OPENAI_API_VERSION" Demo.env in
  exists embed_kwargs tail,
    calls (trace (snd (IngestScript.main env Demo.ingest_svc Demo.w0))) =
      LoadData "./data" :: NewClient "AzureOpenAIEmbedding" embed_kwargs :: tail /\
    ("api_version", None) ∈ embed_kwargs.
Proof.
  intros env.
  destruct (ingest_clients_constructed env Demo.ingest_svc Demo.w0 ["Client manual, 40 pages"])
    as (embed_kwargs & search_kwargs & store_kwargs & rest & Hcalls & Hversion & _).
  - unfold configured. repeat constructor.
  - reflexivity.
  - exists embed_kwargs. eexists. split; [rewrite Hcalls; reflexivity|exact Hversion].
Defined.

(** ** query.py: retrieval *)

(** X14. How a hit becomes a chunk.  A hit whose [content] is missing,
    null or empty gives no chunk.  Otherwise the chunk is the content,
    a newline and a source label: the metadata when it is a non-empty
    string; failing that the [doc_id]; the empty label when the hit has
    no [doc_id] key; and the text [None] when its [doc_id] is null. *)
Theorem chunk_source_label (r : search_doc) :
  let no_metadata :=
    r !! "metadata" = None \/ r !! "metadata" = Some None \/ r !! "metadata" = Some (Some "") in
  (r !! "content" = None \/ r !! "content" = Some None \/ r !! "content" = Some (Some "") ->
   Query.chunk_of r = None) /\
  (forall s, r !! "content" = Some (Some s) -> s <> "" ->
     exists label,
       Query.chunk_of r = Some (s +:+ nl +:+ "(Source: " +:+ label +:+ ")") /\
       (forall m, r !! "metadata" = Some (Some m) -> m <> "" -> label = m) /\
       (no_metadata -> forall d, r !! "doc_id" = Some (Some d) -> label = d) /\
       (no_metadata -> r !! "doc_id" = None -> label = "") /\
       (no_metadata -> r !! "doc_id" = Some None -> label = "None")).
Proof.
  intros no_metadata. subst no_metadata. unfold Query.chunk_of, Query.get, py_or. split.
  - by intros [-> | [-> | ->]].
  - intros s -> Hs. cbn [default from_option id truthy fmt].
    destruct (String.eqb_spec s "") as [|_]; [done|]. cbn [negb].
    eexists. split; [reflexivity|]. split; [|split; [|split]].
    + intros m -> Hm. cbn. by destruct (String.eqb_spec m "").
    + intros [-> | [-> | ->]] d ->; reflexivity.
    + intros [-> | [-> | ->]] ->; reflexivity.
    + intros [-> | [-> | ->]] ->; reflexivity.
Qed.

Lemma chunk_source_label_witness :
  Query.chunk_of (Demo.hit (Some "Opening hours: 9 to 5.") (Some "") None) =
    Some ("Opening hours: 9 to 5." +:+ nl +:+ "(Source: None)").
Proof.
  destruct (chunk_source_label (Demo.hit (Some "Opening hours: 9 to 5.") (Some "") None))
    as [_ Hchunk].
  destruct (Hchunk "Opening hours: 9 to 5.") as (label & -> & _ & _ & _ & Hnull);
    [reflexivity|discriminate|].
  rewrite Hnull; [reflexivity| |reflexivity]. right. right. reflexivity.
Defined.

(** X15. [get_top_chunks] touches no list object and writes exactly two
    log records, the opening one and a closing one.  When nothing raises,
    the closing record reports the number of chunks that are returned. *)
Theorem get_top_chunks_effects cfg svc query top_k w :
  exists chunks tr,
    Query.get_top_chunks cfg svc query top_k w =
      (Ok chunks, World (trace w ++ tr) (heap w)) /\
    length (List.filter is_log tr) = 2 /\
    ((forall e, ~ retrieval_raises cfg svc query top_k e) ->
     last tr =
       Some (Log INFO (" Retrieved " +:+ str_of_Z (Z.of_nat (length chunks)) +:+
                       " chunks for query: " +:+ query) None)).
Proof.
  rewrite get_top_chunks_run. eexists _, _. split; [reflexivity|]. split.
  - cbn [List.filter is_log]. rewrite List.filter_app.
    assert (List.filter is_log (retrieval_calls cfg svc query top_k) = []) as ->.
    { unfold retrieval_calls.
      by destruct (Query.embeddings_create svc query _) as [[|v data]|e]. }
    unfold retrieval_log. by destruct (retrieval_outcome cfg svc query top_k).
  - intros Hok. rewrite app_comm_cons, last_snoc.
    unfold retrieval_log, retrieved.
    destruct (retrieval_outcome cfg svc query top_k) as [chunks|e] eqn:Hout; [done|].
    apply retrieval_raises_outcome in Hout. by apply Hok in Hout.
Qed.

Lemma get_top_chunks_effects_witness :
  exists tr,
    Query.get_top_chunks Demo.cfg Demo.svc "What are the fees?" 10 Demo.w0 =
      (Ok [ "Fees are listed in section 4." +:+ nl +:+ "(Source: manual.pdf p.12)";
            "Accounts close after 90 days." +:+ nl +:+ "(Source: d2)" ],
       World tr (heap Demo.w0)) /\
    last tr = Some (Log INFO " Retrieved 2 chunks for query: What are the fees?" None).
Proof.
  destruct (get_top_chunks_effects Demo.cfg Demo.svc "What are the fees?" 10 Demo.w0)
    as (chunks & tr & Hrun & _ & Hlast).
  assert (Hchunks : chunks =
            [ "Fees are listed in section 4." +:+ nl +:+ "(Source: manual.pdf p.12)";
              "Accounts close after 90 days." +:+ nl +:+ "(Source: d2)" ]).
  { apply (f_equal fst) in Hrun. cbn [fst] in Hrun.
    assert (Hfst : fst (Query.get_top_chunks Demo.cfg Demo.svc "What are the fees?" 10 Demo.w0)
                   = Ok [ "Fees are listed in section 4." +:+ nl +:+ "(Source: manual.pdf p.12)";
                          "Accounts close after 90 days." +:+ nl +:+ "(Source: d2)" ])
      by (vm_compute; reflexivity).
    rewrite Hfst in Hrun. by injection Hrun. }
  subst chunks. exists tr. split; [exact Hrun|].
  rewrite Hlast; [reflexivity|].
  intros e He. destruct He as [He | He _ | v data He Hs | v data pg He Hs Hp].
  - discriminate He.
  - discriminate He.
  - discriminate Hs.
  - injection Hs as <-. discriminate Hp.
Defined.

(** ** query.py: answers *)

(** X16. Responses the chat model should not give.  With no choice in
    the response, [.choices[0]] raises inside the [try] block and the
    answer is the error text for an index out of range.  With a first
    choice whose content is null, the answer is [None] and the history
    gets an assistant entry with no content.  With several choices, the
    answer is the first. *)
Theorem generate_answer_odd_responses cfg svc user_query h hist w :
  heap w !! h = Some hist ->
  let req := Query.completion_request cfg (prompt_for cfg svc user_query hist) in
  (Query.chat_completions_create svc req = Ok [] ->
   exists w',
     Query.generate_answer cfg svc user_query h w =
       (Ok (Some "Error generating response: list index out of range", h), w') /\
     last (trace w') =
       Some (Log ERROR "Failed to generate AI response"
               (Some (IndexError "list index out of range")))) /\
  (forall rest,
     Query.chat_completions_create svc req = Ok (None :: rest) ->
     exists w',
       Query.generate_answer cfg svc user_query h w = (Ok (None, h), w') /\
       heap w' !! h =
         Some (hist ++ [Message "user" (Some user_query); Message "assistant" None])) /\
  (forall first rest,
     Query.chat_completions_create svc req = Ok (first :: rest) ->
     exists w', Query.generate_answer cfg svc user_query h w = (Ok (first, h), w')).
Proof.
  intros Hh req. subst req. rewrite (generate_answer_run _ _ _ _ _ _ Hh).
  unfold answer_of, completion_log, completion_outcome. split; [|split].
  - intros ->. cbn [index0]. eexists. split; [reflexivity|]. cbn [trace]. solve_last.
  - intros rest ->. cbn [index0]. eexists. split; [reflexivity|]. cbn [heap].
    apply lookup_insert_eq.
  - intros first rest ->. cbn [index0]. eexists. reflexivity.
Qed.

Lemma generate_answer_odd_responses_witness :
  let svc := {| Query.embeddings_create := fun _ _ => Ok [[1; 2; 3]%Z];
                Query.search := fun _ => Ok PageEnd;
                Query.chat_completions_create := fun _ => Ok [] |} in
  exists w',
    Query.generate_answer Demo.cfg svc "What are the fees?" 0 Demo.w0 =
      (Ok (Some "Error generating response: list index out of range", 0), w').
Proof.
  intros svc.
  destruct (generate_answer_odd_responses Demo.cfg svc "What are the fees?" 0 Demo.earlier
              Demo.w0) as [Hempty _]; [reflexivity|].
  destruct Hempty as (w' & Hrun & _); [reflexivity|].
  exists w'. exact Hrun.
Defined.

(** X17. Two turns in a row.  The second call sends the history as the
    first call left it, that is the earlier entries, the first question
    and the first answer, followed by the system instruction and the
    second question with its own context.  The system instruction and
    the context of the first turn are not sent again, and the history
    ends four entries longer. *)
Theorem generate_answer_two_turns cfg svc query1 query2 h hist w :
  heap w !! h = Some hist ->
  exists answer1 w1 answer2 w2 chunks2,
    Query.generate_answer cfg svc query1 h w = (Ok (answer1, h), w1) /\
    Query.generate_answer cfg svc query2 h w1 = (Ok (answer2, h), w2) /\
    (forall w0, fst (Query.get_top_chunks cfg svc query2 10 w0) = Ok chunks2) /\
    last (chat_requests (trace w2)) =
      Some (Query.completion_request cfg
              (hist ++
               [ Message "user" (Some query1); Message "assistant" answer1;
                 Query.system_message;
                 Query.user_message_with_context chunks2 query2 ])) /\
    heap w2 !! h =
      Some (hist ++
            [ Message "user" (Some query1); Message "assistant" answer1;
              Message "user" (Some query2); Message "assistant" answer2 ]).
Proof.
  intros Hh.
  pose proof (generate_answer_run cfg svc query1 h hist w Hh) as Hrun1.
  cbv zeta in Hrun1.
  set (answer1 := answer_of cfg svc (prompt_for cfg svc query1 hist)) in *.
  set (hist1 := hist ++ [Message "user" (Some query1); Message "assistant" answer1]) in *.
  match type of Hrun1 with _ = (_, ?x) => set (w1 := x) in * end.
  assert (Hh1 : heap w1 !! h = Some hist1) by apply lookup_insert_eq.
  pose proof (generate_answer_run cfg svc query2 h hist1 w1 Hh1) as Hrun2.
  cbv zeta in Hrun2.
  pose proof (chat_requests_generate_answer cfg svc query2 h hist1 w1 Hh1) as Hreq.
  eexists answer1, w1, _, _, (retrieved cfg svc query2 10).
  split; [exact Hrun1|]. split; [exact Hrun2|].
  split; [intros w0; apply get_top_chunks_retrieved|].
  rewrite Hrun2 in Hreq. cbn [snd] in Hreq. split.
  - rewrite Hreq, last_snoc. unfold prompt_for, hist1. by rewrite <- app_assoc.
  - cbn [heap]. rewrite lookup_insert_eq. unfold hist1. by rewrite <- app_assoc.
Qed.

Lemma generate_answer_two_turns_witness :
  exists answer1 w1 answer2 w2,
    Query.generate_answer Demo.cfg Demo.svc "What are the fees?" 0 Demo.w0 =
      (Ok (answer1, 0), w1) /\
    Query.generate_answer Demo.cfg Demo.svc "And the opening hours?" 0 w1 =
      (Ok (answer2, 0), w2) /\
    heap w2 !! 0 =
      Some (Demo.earlier ++
            [ Message "user" (Some "What are the fees?"); Message "assistant" answer1;
              Message "user" (Some "And the opening hours?"); Message "assistant" answer2 ]).
Proof.
  destruct (generate_answer_two_turns Demo.cfg Demo.svc "What are the fees?"
              "And the opening hours?" 0 Demo.earlier Demo.w0)
    as (a1 & w1 & a2 & w2 & chunks2 & Hrun1 & Hrun2 & _ & _ & Hhist); [reflexivity|].
  exists a1, w1, a2, w2. split; [exact Hrun1|]. split; [exact Hrun2|exact Hhist].
Defined.

(** X18. The deployment names are defaulted, not checked.  The embedding
    call of a turn names the deployment [AZURE_OPENAI_EMBED_DEPLOYMENT],
    or [embed] when that variable is unset, and the chat call, the last
    service call of the turn, names [AZURE_OPENAI_CHAT_DEPLOYMENT], or
    [chat] when unset; a variable set to the empty string is passed on
    as it is.  The chat call always asks for temperature 0.2 and at most
    1000 tokens. *)
Theorem deployments_default_when_unset env svc user_query h hist w :
  heap w !! h = Some hist ->
  exists answer w' rest req,
    Query.generate_answer (Query.load_config env) svc user_query h w = (Ok (answer, h), w') /\
    calls (trace w') =
      calls (trace w) ++
      EmbeddingsCreate user_query (default "embed" (env !! "AZURE_OPENAI_EMBED_DEPLOYMENT"))
      :: rest /\
    last (calls (trace w')) = Some (ChatCompletionsCreate req) /\
    model req = default "chat" (env !! "AZURE_OPENAI_CHAT_DEPLOYMENT") /\
    temperature req = Decimal 2 1 /\
    max_tokens req = 1000%Z.
Proof.
  intros Hh. rewrite (generate_answer_run _ _ _ _ _ _ Hh).
  eexists _, _, _, _. split; [reflexivity|]. cbn [trace].
  rewrite calls_app, calls_answer_events. split; [|split].
  - unfold retrieval_calls. cbn [Query.load_config Query.AZURE_OPENAI_EMBED_DEPLOYMENT].
    unfold getenv_default. rewrite <- app_comm_cons. reflexivity.
  - rewrite app_assoc. apply last_snoc.
  - repeat split.
Qed.

Lemma deployments_default_when_unset_witness :
  let env := delete "AZURE_OPENAI_EMBED_DEPLOYMENT" Demo.env in
  exists rest,
    calls (trace (snd (Query.generate_answer (Query.load_config env) Demo.svc
                         "What are the fees?" 0 Demo.w0))) =
      EmbeddingsCreate "What are the fees?" "embed" :: rest.
Proof.
  intros env.
  destruct (deployments_default_when_unset env Demo.svc "What are the fees?" 0 Demo.earlier
              Demo.w0) as (answer & w' & rest & req & Hrun & Hcalls & _); [reflexivity|].
  exists rest. rewrite Hrun. cbn [snd]. rewrite Hcalls. reflexivity.
Defined.

(** ** query.py: the page *)

(** X19. The history is drawn one bubble per entry, in order, each with
    the entry's content.  Only entries with the role [user] are drawn as
    the user; every other role, [system] included, is drawn as the
    assistant.  Drawing changes no list object. *)
Theorem render_bubbles (msgs : list message) (w : world) :
  exists tr,
    Query.render msgs w = (Ok tt, World (trace w ++ tr) (heap w)) /\
    length tr = length msgs /\
    forall i msg,
      msgs !! i = Some msg ->
      exists name,
        tr !! i = Some (ChatMessage name (content msg)) /\
        (role msg = "user" -> name = "user") /\
        (role msg <> "user" -> name = "assistant").
Proof.
  rewrite render_run. exists (rendering msgs). split; [reflexivity|].
  unfold rendering. split; [apply length_map|].
  intros i msg Hi. eexists. split.
  - change (map ?f msgs) with (f <$> msgs). rewrite list_lookup_fmap, Hi. reflexivity.
  - split.
    + intros ->. reflexivity.
    + intros Hrole. by destruct (String.eqb_spec (role msg) "user").
Qed.

(** X20. A run of the page without input contacts no service.  When
    [st.chat_input] returns nothing, or the empty string, the run
    constructs the two clients, draws the header and the stored history
    and ends; it calls neither the embedding, the search nor the chat
    service and changes no list.  On the very first run, when the
    session holds no history yet, it stores a new empty list and draws no
    bubble. *)
Theorem page_without_input env svc prompt w :
  configured env ["AZURE_OPENAI_ENDPOINT"; "AZURE_OPENAI_API_KEY";
                  "AZURE_SEARCH_ENDPOINT"; "AZURE_SEARCH_API_KEY"; "AZURE_SEARCH_INDEX"] ->
  prompt = None \/ prompt = Some "" ->
  (forall h hist,
     heap w !! h = Some hist ->
     exists w',
       Query.script env svc (Some h) prompt w = (Ok (Some h, Query.Finished), w') /\
       heap w' = heap w /\
       calls (trace w') =
         calls (trace w) ++ page_header (Query.load_config env) ++ rendering hist) /\
  (exists h w',
     Query.script env svc None prompt w = (Ok (Some h, Query.Finished), w') /\
     heap w !! h = None /\
     heap w' = <[h := []]> (heap w) /\
     calls (trace w') = calls (trace w) ++ page_header (Query.load_config env)).
Proof.
  intros Hcfg Hprompt.
  assert (Htruthy : truthy prompt = false) by (by destruct Hprompt as [-> | ->]).
  destruct (startup_run env w Hcfg) as (tr1 & Hstart & Hcalls1).
  unfold Query.script. cbv [bind]. rewrite Hstart. split.
  - intros h hist Hh. unfold Query.page. rewrite Htruthy.
    cbv [bind emit ret list_read]. cbn [trace heap]. rewrite Hh.
    cbn [default from_option id]. rewrite render_run. cbn [trace heap].
    eexists. split; [reflexivity|]. split; [reflexivity|]. cbn [trace].
    rewrite !calls_app, Hcalls1, calls_rendering. cbn.
    repeat first [rewrite <- app_assoc | progress cbn [app]]. reflexivity.
  - unfold Query.page. rewrite Htruthy.
    cbv [bind emit ret list_read list_new logger_info]. cbn [trace heap].
    rewrite lookup_insert_eq. cbn [default from_option id Query.render].
    cbv [ret]. eexists _, _. split; [reflexivity|]. cbn [trace heap].
    split; [apply not_elem_of_dom, is_fresh|]. split; [reflexivity|].
    rewrite !calls_app, Hcalls1. cbn.
    repeat first [rewrite app_nil_r | rewrite <- app_assoc | progress cbn [app]].
    reflexivity.
Qed.

Lemma page_without_input_witness :
  exists w',
    Query.script Demo.env Demo.svc (Some 0) (Some "") Demo.w0
      = (Ok (Some 0, Query.Finished), w') /\
    calls (trace w') = page_header Demo.cfg ++ rendering Demo.earlier.
Proof.
  destruct (page_without_input Demo.env Demo.svc (Some "") Demo.w0) as [Hstored _].
  - unfold configured. repeat constructor.
  - right. reflexivity.
  - destruct (Hstored 0 Demo.earlier) as (w' & Hrun & _ & Hcalls); [reflexivity|].
    exists w'. split; [exact Hrun|exact Hcalls].
Defined.

Lemma render_bubbles_witness :
  exists tr,
    Query.render [Message "system" (Some "Be brief."); Message "user" (Some "Hello")] Demo.w0
      = (Ok tt, World tr (heap Demo.w0)) /\
    tr !! 0 = Some (ChatMessage "assistant" (Some "Be brief.")).
Proof.
  destruct (render_bubbles [Message "system" (Some "Be brief."); Message "user" (Some "Hello")]
              Demo.w0) as (tr & Hrun & _ & Hbubble).
  exists tr. split; [exact Hrun|].
  destruct (Hbubble 0 (Message "system" (Some "Be brief."))) as (name & Hlookup & _ & Hother);
    [reflexivity|].
  rewrite Hlookup, Hother; [reflexivity|discriminate].
Defined.

Lemma module_init_quiets_azure_witness :
  LoggerConfig.loggers (LoggerConfig.module_init Demo.logging0) !! "src.query.query" = None /\
  LoggerConfig.level_of (LoggerConfig.getLogger "azure" (LoggerConfig.module_init Demo.logging0))
    = 30%Z.
Proof.
  destruct (module_init_quiets_azure Demo.logging0) as (Hlevel & _ & _ & Hothers & _).
  split; [|exact Hlevel].
  rewrite Hothers; [reflexivity|discriminate|discriminate].
Defined.

Lemma index_schema_agrees_with_query_witness :
  Query.chunk_of (<["score" := Some "0.93"]> Demo.hit1) = Query.chunk_of Demo.hit1.
Proof.
  destruct (index_schema_agrees_with_query "client-manual-index" [1; 2; 3]%Z 10)
    as (_ & _ & _ & _ & Hselected).
  apply Hselected. intros field Hin%list_elem_of_In. simpl in Hin.
  apply lookup_insert_ne.
  destruct Hin as [<-|[<-|[<-|[]]]]; discriminate.
Defined.
